(** * Priyansh Dryfruits & Spices backend: checkout, seed and listing

    A shallow embedding of [src/main.py] and [src/schemas.py].

    - Python [float] is IEEE 754 binary64, modelled with the Standard
      Library's [spec_float] at precision 53 and maximal exponent 1024, so
      every rounding of the source is computed, not idealised.
    - Python [int] is unbounded: [Z].
    - Exceptions are values of [exn]; handlers run in a state-and-error monad
      over the [world] (the database handle, its content, and the journal of
      the operations sent to it). *)

From Stdlib Require Import ZArith Bool List Lia SpecFloat.
From stdpp Require Import gmap strings list fin_maps.

Open Scope string_scope.
Open Scope Z_scope.

(** ** Python floats *)

Module PyFloat.

Definition prec : Z := 53.
Definition emax : Z := 1024.

Definition float : Type := spec_float.

Definition add : float -> float -> float := SFadd prec emax.
Definition mul : float -> float -> float := SFmul prec emax.

(** [x >= y], [x < y] on floats: false as soon as one side is NaN. *)
Definition ge (x y : float) : bool :=
  match SFcompare x y with
  | Some Gt | Some Eq => true
  | _ => false
  end.

Definition lt (x y : float) : bool := SFltb x y.

(** [x == y] on floats. *)
Definition eqb (x y : float) : bool := SFeqb x y.

Definition zero : float := S754_zero false.

(** Unary minus. *)
Definition opp : float -> float := SFopp.

(** The double nearest to [n / d] (ties to even), with sign [s]; this is what
    reading a decimal literal or a decimal string yields. *)
Definition of_ratio (s : bool) (n d : positive) : float :=
  let '(mz, ez, lz) := SFdiv_core_binary prec emax (Zpos n) 0 (Zpos d) 0 in
  binary_round_aux prec emax s mz ez lz.

(** The double written [n * 10^k] in decimal, for [n >= 0]. *)
Definition of_decimal (s : bool) (n : Z) (k : Z) : float :=
  match n with
  | Zpos p =>
      match k with
      | Zneg q => of_ratio s p (Pos.pow 10 q)
      | _ => binary_normalize prec emax (if s then Z.opp (n * 10 ^ k) else n * 10 ^ k) 0 s
      end
  | _ => S754_zero s
  end.

(** [float(z)] for a Python int: the nearest double, or [None] where Python
    raises [OverflowError: int too large to convert to float]. *)
Definition of_int (z : Z) : option float :=
  match binary_normalize prec emax z 0 false with
  | S754_infinity _ => None
  | f => Some f
  end.

(** Nearest integer to [n / d], ties to the even one ([0 <= n], [0 < d]). *)
Definition div_half_even (n d : Z) : Z :=
  let q := n / d in
  let r := n mod d in
  match Z.compare (2 * r) d with
  | Lt => q
  | Gt => q + 1
  | Eq => if Z.even q then q else q + 1
  end.

(** The integer nearest to [m * 2^e * 10^2], ties to even. *)
Definition scaled_hundredths (m : positive) (e : Z) : Z :=
  match e with
  | Zneg p => div_half_even (100 * Zpos m) (2 ^ Zpos p)
  | _ => 100 * Zpos m * 2 ^ e
  end.

(** [round(x, 2)]: the closest multiple of [10^-2] to the exact value of [x],
    ties going to the even multiple, delivered as the nearest double and with
    the sign of [x]; NaN and the infinities round to themselves. *)
Definition round2 (x : float) : float :=
  match x with
  | S754_finite s m e => of_decimal s (scaled_hundredths m e) (-2)
  | _ => x
  end.

End PyFloat.

Import PyFloat.

(** ** Exceptions and the two monads *)

Inductive constraint :=
| greater_than_equal (bound : Z)
| missing
| float_type.

Inductive exn :=
| HTTPException (status_code : Z) (detail : string)
| OverflowError
| ValidationError (errors : list (string * constraint))
| DatabaseNotAvailable.

(** A pure Python computation: a value or a raised exception. *)
Inductive outcome (A : Type) :=
| Ok (a : A)
| Raise (e : exn).
Arguments Ok {A} a.
Arguments Raise {A} e.

Definition rbind {A B} (r : outcome A) (k : A -> outcome B) : outcome B :=
  match r with
  | Ok a => k a
  | Raise e => Raise e
  end.

Notation "'let*' x ':=' r 'in' k" := (rbind r (fun x => k))
  (at level 10, x name, r at level 100, k at level 200).

(** ** Python numbers: [int] and [float] with the usual coercion *)

Inductive number :=
| NInt (z : Z)
| NFloat (f : float).

(** The coercion of an operand to [float] in mixed arithmetic. *)
Definition to_float (n : number) : outcome float :=
  match n with
  | NFloat f => Ok f
  | NInt z => match of_int z with Some f => Ok f | None => Raise OverflowError end
  end.

Definition number_add (a b : number) : outcome number :=
  match a, b with
  | NInt x, NInt y => Ok (NInt (x + y))
  | _, _ => let* x := to_float a in let* y := to_float b in Ok (NFloat (add x y))
  end.

Definition number_mul (a b : number) : outcome number :=
  match a, b with
  | NInt x, NInt y => Ok (NInt (x * y))
  | _, _ => let* x := to_float a in let* y := to_float b in Ok (NFloat (mul x y))
  end.

(** [round(n, 2)]: an int is returned as it is. *)
Definition round_2 (n : number) : number :=
  match n with
  | NInt z => NInt z
  | NFloat f => NFloat (round2 f)
  end.

(** [sum(f(x) for x in xs)]: the accumulator starts at the int [0] and the
    generator's items are computed and added one by one, left to right, as
    the language reference describes it; the first exception ends the loop.
    (From version 3.12 on, CPython adds floats with a compensated
    algorithm, whose result may differ from this one in the last place; on
    the inputs evaluated below the two agree.) *)
Fixpoint sum_from {A} (acc : number) (f : A -> outcome number) (xs : list A)
  : outcome number :=
  match xs with
  | [] => Ok acc
  | x :: rest =>
      let* v := f x in
      let* acc' := number_add acc v in
      sum_from acc' f rest
  end.

Definition sum {A} (f : A -> outcome number) (xs : list A) : outcome number :=
  sum_from (NInt 0) f xs.

(** [value >= 0] as the [ge=0] field constraint applies it. *)
Definition ge0 (f : float) : bool := PyFloat.ge f zero.

(** ** [schemas.py] *)

Module Product.

Record t := mk {
  title : string;
  description : option string;
  price : float;
  category : string;
  image_url : option string;
  in_stock : bool
}.

(** The constructor [Product] on keyword arguments of the declared types: the only
    constraint left to check is [price: float = Field(..., ge=0)]. *)
Definition new (kw : t) : outcome t :=
  if ge0 (price kw) then Ok kw
  else Raise (ValidationError [("price", greater_than_equal 0)]).

End Product.

Module OrderItem.

Record t := mk {
  product_id : string;
  title : string;
  quantity : Z;
  price : float
}.

(** [quantity: int = Field(..., ge=1)], [price: float = Field(..., ge=0)];
    the errors come in field order. *)
Definition errors (kw : t) : list (string * constraint) :=
  ((if 1 <=? quantity kw then [] else [("quantity", greater_than_equal 1)]) ++
   (if ge0 (price kw) then [] else [("price", greater_than_equal 0)]))%list.

Definition new (kw : t) : outcome t :=
  match errors kw with
  | [] => Ok kw
  | errs => Raise (ValidationError errs)
  end.

Definition valid (i : t) : bool := (1 <=? quantity i) && ge0 (price i).

End OrderItem.

Module Order.

Record t := mk {
  customer_name : string;
  customer_email : string;
  customer_phone : option string;
  shipping_address : string;
  items : list OrderItem.t;
  subtotal : float;
  tax : float;
  total : float
}.

(** A [float] field with [ge=0] given a Python number: an int is converted
    first (an int with no double is not a valid number). *)
Definition float_field (name : string) (v : number)
  : float * list (string * constraint) :=
  match v with
  | NFloat f => (f, if ge0 f then [] else [(name, greater_than_equal 0)])
  | NInt z =>
      match of_int z with
      | Some f => (f, if ge0 f then [] else [(name, greater_than_equal 0)])
      | None => (zero, [(name, float_type)])
      end
  end.

(** [Order(customer_name=..., customer_email=..., shipping_address=...,
    items=..., subtotal=..., tax=..., total=...)]; [customer_phone] takes its
    default [None]. *)
Definition new (customer_name customer_email shipping_address : string)
    (items : list OrderItem.t) (subtotal tax total : number) : outcome t :=
  let '(s, es) := float_field "subtotal" subtotal in
  let '(x, ex) := float_field "tax" tax in
  let '(t, et) := float_field "total" total in
  match (es ++ ex ++ et)%list with
  | [] => Ok (mk customer_name customer_email None shipping_address items s x t)
  | errs => Raise (ValidationError errs)
  end.

End Order.

(** ** The database and the handlers' monad *)

(** A stored document: the dictionary of a product or of an order. *)
Inductive document :=
| ProductDoc (p : Product.t)
| OrderDoc (o : Order.t).

(** A query dictionary [{field: value, ...}] on text fields; [[]] is [{}]. *)
Definition query : Type := list (string * string).

Record database := mkdb {
  collections : gmap string (list (nat * document));
  next_id : nat
}.

(** What was asked of the database, in order. *)
Inductive db_op :=
| count_op (collection_name : string) (q : query)
| find_op (collection_name : string) (q : query)
| insert_op (collection_name : string) (d : document).

(** [db] is [None] when no database is configured. *)
Record world := mkworld {
  db : option database;
  journal : list db_op
}.

Definition M (A : Type) : Type := world -> outcome A * world.

Definition ret {A} (a : A) : M A := fun w => (Ok a, w).

Definition raise {A} (e : exn) : M A := fun w => (Raise e, w).

Definition bind {A B} (c : M A) (k : A -> M B) : M B :=
  fun w =>
    match c w with
    | (Ok a, w') => k a w'
    | (Raise e, w') => (Raise e, w')
    end.

Definition lift {A} (r : outcome A) : M A := fun w => (r, w).

Notation "'let!' x ':=' c 'in' k" := (bind c (fun x => k))
  (at level 10, x name, c at level 100, k at level 200).

(** [for x in xs: body(x)] *)
Fixpoint for_each {A} (xs : list A) (body : A -> M unit) : M unit :=
  match xs with
  | [] => ret tt
  | x :: rest => let! _ := body x in for_each rest body
  end.

(** The text fields of a document, by key. *)
Definition field (d : document) (k : string) : option string :=
  match d with
  | ProductDoc p =>
      if String.eqb k "title" then Some (Product.title p)
      else if String.eqb k "description" then Product.description p
      else if String.eqb k "category" then Some (Product.category p)
      else if String.eqb k "image_url" then Product.image_url p
      else None
  | OrderDoc o =>
      if String.eqb k "customer_name" then Some (Order.customer_name o)
      else if String.eqb k "customer_email" then Some (Order.customer_email o)
      else if String.eqb k "customer_phone" then Order.customer_phone o
      else if String.eqb k "shipping_address" then Some (Order.shipping_address o)
      else None
  end.

(** A document matches a query when each queried field holds exactly the
    queried text. *)
Definition matches (q : query) (d : nat * document) : bool :=
  forallb (fun kv => match field (snd d) (fst kv) with
                     | Some s => String.eqb s (snd kv)
                     | None => false
                     end) q.

Definition collection (s : database) (name : string) : list (nat * document) :=
  default [] (collections s !! name).

(** [db[name].count_documents(q)] of the database driver. *)
Definition count_documents (name : string) (q : query) : M Z :=
  fun w =>
    match db w with
    | None => (Raise DatabaseNotAvailable, w)
    | Some s =>
        (Ok (Z.of_nat (length (List.filter (matches q) (collection s name)))),
         mkworld (Some s) (journal w ++ [count_op name q]))
    end.

(** Modelled from the spec: [database.py] (the persistence gateway) is not
    among the sources. [create_document] creates a document in a named
    collection from an entity and returns the generated identifier. *)
Definition create_document (name : string) (d : document) : M nat :=
  fun w =>
    match db w with
    | None => (Raise DatabaseNotAvailable, w)
    | Some s =>
        let i := next_id s in
        (Ok i,
         mkworld
           (Some (mkdb (<[name := (collection s name ++ [(i, d)])%list]> (collections s))
                       (S i)))
           (journal w ++ [insert_op name d]))
    end.

(** Modelled from the spec: [database.py] is not among the sources.
    [get_documents] fetches the documents of a named collection that match a
    filter, as raw records. *)
Definition get_documents (name : string) (q : query) : M (list (nat * document)) :=
  fun w =>
    match db w with
    | None => (Raise DatabaseNotAvailable, w)
    | Some s =>
        (Ok (List.filter (matches q) (collection s name)),
         mkworld (Some s) (journal w ++ [find_op name q]))
    end.

(** ** [main.py] *)

(** [if db is None: raise HTTPException(status_code=500, ...)] *)
Definition require_db : M unit :=
  fun w =>
    match db w with
    | None => (Raise (HTTPException 500 "Database not configured"), w)
    | Some _ => (Ok tt, w)
    end.

Record seed_response := mkseed {
  seed_status : string;
  seed_message : option string;
  seed_inserted : option nat
}.

(** A float literal with an integral value, such as [699.0]. *)
Definition lit (n : Z) : float := of_decimal false n 0.

Definition products : list Product.t := [
  Product.mk "Premium Almonds" (Some "Handpicked Californian almonds.") (lit 699) "dryfruits" (Some "/images/almonds.jpg") true;
  Product.mk "Whole Cashews" (Some "Crisp and buttery cashews.") (lit 749) "dryfruits" (Some "/images/cashews.jpg") true;
  Product.mk "Pistachios" (Some "Roasted and lightly salted.") (lit 899) "dryfruits" (Some "/images/pistachios.jpg") true;
  Product.mk "Walnuts" (Some "Omega-3 rich walnut kernels.") (lit 799) "dryfruits" (Some "/images/walnuts.jpg") true;
  Product.mk "Raisins" (Some "Golden seedless raisins.") (lit 299) "dryfruits" (Some "/images/raisins.jpg") true;
  Product.mk "Cardamom (Elaichi)" (Some "Aromatic whole green cardamom.") (lit 459) "spices" (Some "/images/cardamom.jpg") true;
  Product.mk "Black Pepper" (Some "Bold Malabar black pepper.") (lit 349) "spices" (Some "/images/blackpepper.jpg") true;
  Product.mk "Turmeric Powder" (Some "Pure Lakadong turmeric.") (lit 199) "spices" (Some "/images/turmeric.jpg") true;
  Product.mk "Red Chilli Powder" (Some "Vibrant Byadgi chilli powder.") (lit 229) "spices" (Some "/images/redchilli.jpg") true;
  Product.mk "Spice Gift Box" (Some "Curated spice box for gifting.") (lit 1299) "gifting" (Some "/images/spicebox.jpg") true;
  Product.mk "Dry Fruits Combo" (Some "Assorted premium dry fruits.") (lit 1499) "combos" (Some "/images/combobox.jpg") true
].

Definition seed_products : M seed_response :=
  let! _ := require_db in
  let! existing := count_documents "product" [] in
  if 0 <? existing then
    ret (mkseed "ok" (Some "Products already seeded") None)
  else
    let! _ := for_each products (fun p =>
                let! e := lift (Product.new p) in
                let! _ := create_document "product" (ProductDoc e) in
                ret tt) in
    ret (mkseed "ok" None (Some (length products))).

(** The truth value of an optional text: [None] and [""] are false. *)
Definition truthy (o : option string) : bool :=
  match o with
  | None => false
  | Some s => negb (String.eqb s "")
  end.

(** The constructor [Product] on a fetched record whose ["_id"] was popped;
    keys that are no field of [Product] are ignored, absent required ones
    are reported. *)
Definition product_of_record (d : document) : outcome Product.t :=
  match d with
  | ProductDoc kw => Product.new kw
  | OrderDoc _ =>
      Raise (ValidationError [("title", missing); ("price", missing); ("category", missing)])
  end.

(** [for d in docs: d.pop("_id", None); result.append(Product(...))] *)
Fixpoint append_products (docs : list (nat * document)) (result : list Product.t)
  : outcome (list Product.t) :=
  match docs with
  | [] => Ok result
  | d :: rest =>
      let* p := product_of_record (snd d) in
      append_products rest (result ++ [p])%list
  end.

Definition list_products (category : option string) : M (list Product.t) :=
  let! _ := require_db in
  let filter_q : query :=
    match category with
    | Some c => if truthy category then [("category", c)] else []
    | None => []
    end in
  let! docs := get_documents "product" filter_q in
  lift (append_products docs []).

Record CheckoutRequest := mkrequest {
  customer_name : string;
  customer_email : string;
  shipping_address : string;
  items : list OrderItem.t
}.

Record checkout_response := mkcheckout {
  status : string;
  order_id : nat;
  total : number
}.

(** The float literal [0.05]. *)
Definition rate : float := of_decimal false 5 (-2).

(** [item.price * item.quantity] *)
Definition line_amount (item : OrderItem.t) : outcome number :=
  number_mul (NFloat (OrderItem.price item)) (NInt (OrderItem.quantity item)).

(** Lines 119 to 121 of [checkout]: subtotal, tax and total. *)
Definition totals (items : list OrderItem.t) : outcome (number * number * number) :=
  let* subtotal := sum line_amount items in
  let* x := number_mul subtotal (NFloat rate) in
  let tax := round_2 x in
  let* y := number_add subtotal tax in
  let total := round_2 y in
  Ok (subtotal, tax, total).

Definition checkout (payload : CheckoutRequest) : M checkout_response :=
  let! _ := require_db in
  let! t := lift (totals (items payload)) in
  let '(subtotal, tax, total) := t in
  let! order := lift (Order.new (customer_name payload) (customer_email payload)
                                (shipping_address payload) (items payload)
                                subtotal tax total) in
  let! order_id := create_document "order" (OrderDoc order) in
  ret (mkcheckout "success" order_id total).

(** ** Predicates of the statements *)

(** The sign class of a float: [Some s] for a zero, a finite number or an
    infinity of sign [s], [None] for NaN. *)
Definition sign_of (x : float) : option bool :=
  match x with
  | S754_nan => None
  | S754_zero s | S754_infinity s | S754_finite s _ _ => Some s
  end.

Definition is_zero (x : float) : bool :=
  match x with S754_zero _ => true | _ => false end.

(** [x >= 0] holds of the zeros and of what carries a plus sign. *)
Definition nonneg (x : float) : bool :=
  match x with
  | S754_zero _ => true
  | S754_nan => false
  | S754_infinity s | S754_finite s _ _ => negb s
  end.

(** Positive and finite. *)
Definition posfin (x : float) : bool :=
  match x with
  | S754_finite false _ _ => true
  | _ => false
  end.

(** A quantity that has a double, so that [price * quantity] is defined. *)
Definition fits (i : OrderItem.t) : Prop := is_Some (of_int (OrderItem.quantity i)).

(** The int [0] or a float that is [>= 0]. *)
Definition good (n : number) : bool :=
  match n with
  | NInt z => Z.eqb z 0
  | NFloat f => nonneg f
  end.

(** An int with a double, or a float. *)
Definition floatable (n : number) : Prop :=
  match n with
  | NInt z => is_Some (of_int z)
  | NFloat _ => True
  end.

(** The sum of a list of numbers taken from left to right, as a relation:
    nothing added leaves the start, and one more term adds to the sum of
    the terms before it. *)
Inductive sums_to (start : number) : list number -> number -> Prop :=
| sums_nil : sums_to start [] start
| sums_snoc (l : list number) (s v s' : number) :
    sums_to start l s -> number_add s v = Ok s' -> sums_to start (l ++ [v])%list s'.

(** [n >= 0] on numbers. *)
Definition number_ge0 (n : number) : bool :=
  match n with
  | NInt z => 0 <=? z
  | NFloat f => ge0 f
  end.

(** The order items of the example: two at 699.0 and one at 299.0. *)
Definition example_items : list OrderItem.t := [
  OrderItem.mk "almonds" "Premium Almonds" 2 (lit 699);
  OrderItem.mk "raisins" "Raisins" 1 (lit 299)
].

(** The response of every handler when no database is configured. *)
Definition not_configured {A} : outcome A :=
  Raise (HTTPException 500 "Database not configured").

(** The requests served by the application and the world each leaves. *)
Inductive request :=
| POST_seed
| GET_products (category : option string)
| POST_checkout (payload : CheckoutRequest).

Definition serve (w : world) (r : request) : world :=
  match r with
  | POST_seed => snd (seed_products w)
  | GET_products category => snd (list_products category w)
  | POST_checkout payload => snd (checkout payload w)
  end.

(** The stored orders of a world. *)
Definition orders (w : world) : list (nat * document) :=
  match db w with
  | Some s => collection s "order"
  | None => []
  end.

(** A stored record from which [Product] can be built. *)
Definition is_product (d : nat * document) : bool :=
  match snd d with
  | ProductDoc p => ge0 (Product.price p)
  | OrderDoc _ => false
  end.

(** The products held by a list of records. *)
Definition products_in (docs : list (nat * document)) : list Product.t :=
  flat_map (fun d => match snd d with
                     | ProductDoc p => [p]
                     | OrderDoc _ => []
                     end) docs.

Definition stored_products (s : database) : list Product.t :=
  products_in (collection s "product").

(** The records made of a list of products, numbered from [i]. *)
Fixpoint numbered (i : nat) (ps : list Product.t) : list (nat * document) :=
  match ps with
  | [] => []
  | p :: rest => (i, ProductDoc p) :: numbered (S i) rest
  end.

(** A configured database with no document, and the same once seeded. *)
Definition empty_world : world := mkworld (Some (mkdb ∅ 0)) [].

Definition seeded_world : world := snd (seed_products empty_world).

(** A payload with one item priced 0.001, and one with one item priced 1.1. *)
Definition tiny_payload : CheckoutRequest :=
  mkrequest "Asha" "asha@example.com" "12 Market Road"
    [OrderItem.mk "sample" "Saffron sample" 1 (of_decimal false 1 (-3))].

Definition small_payload : CheckoutRequest :=
  mkrequest "Asha" "asha@example.com" "12 Market Road"
    [OrderItem.mk "sachet" "Pepper sachet" 1 (of_decimal false 11 (-1))].

(** The payload of the example order. *)
Definition example_payload : CheckoutRequest :=
  mkrequest "Asha" "asha@example.com" "12 Market Road" example_items.

(** What checkout answers to the example payload on the empty database. *)
Definition example_response : checkout_response :=
  mkcheckout "success" 0 (NFloat (of_decimal false 178185 (-2))).

(** Every record of the product collection is a product. *)
Definition product_records_valid (w : world) : Prop :=
  match db w with
  | Some s => Forall (fun d => is_product d = true) (collection s "product")
  | None => True
  end.

(** Storing a document in the order collection. *)
Definition store_order (s : database) (o : Order.t) : database :=
  mkdb (<["order" := (collection s "order" ++ [(next_id s, OrderDoc o)])%list]>
          (collections s))
       (S (next_id s)).

(** The stored product records of a world. *)
Definition catalogue (w : world) : list (nat * document) :=
  match db w with
  | Some s => collection s "product"
  | None => []
  end.

(** The query that [list_products] sends for a category argument. *)
Definition category_query (category : option string) : query :=
  match category with
  | Some c => if truthy category then [("category", c)] else []
  | None => []
  end.

(** Whether a request is a checkout that answers in the given world. *)
Definition answered (w : world) (r : request) : bool :=
  match r with
  | POST_checkout payload =>
      match fst (checkout payload w) with
      | Ok _ => true
      | Raise _ => false
      end
  | _ => false
  end.

(** The checkouts that answer while a list of requests is served in turn. *)
Fixpoint count_answered (w : world) (rs : list request) : nat :=
  match rs with
  | [] => 0
  | r :: rest => (if answered w r then 1 else 0) + count_answered (serve w r) rest
  end.

(** A world whose product collection holds a record with a negative price
    among the dry fruits, and a sound record among the spices. *)
Definition flawed_world : world :=
  mkworld
    (Some (mkdb (<["product" :=
                    [(0%nat, ProductDoc (Product.mk "Dates" None (opp (lit 1))
                                           "dryfruits" None true));
                     (1%nat, ProductDoc (Product.mk "Cloves" None (lit 99)
                                           "spices" None true))]]> ∅) 2))
    [].

(** [+inf] *)
Definition infinity : float := S754_infinity false.



(** Not a number. *)
Definition nan : float := S754_nan.

(** A whole number of hundredths: [+inf], a zero, or the double written
    [n * 10^-2] for a positive integer [n]. *)
Definition hundredths (x : float) : Prop :=
  x = infinity \/ is_zero x = true \/ exists p : positive, x = of_decimal false (Zpos p) (-2).

(** ** The connectivity probe of [main.py] *)

Module Diagnostics.

(** Python text as the list of its code points: the probe slices text by
    characters. *)
Definition text : Type := list N.

Definition ascii_text (s : string) : text :=
  map Ascii.N_of_ascii (String.list_ascii_of_string s).

(** The signs of the messages: U+2705, U+274C, and U+26A0 U+FE0F. *)
Definition check_mark : text := [0x2705%N].
Definition cross_mark : text := [0x274c%N].
Definition warning_sign : text := [0x26a0%N; 0xfe0f%N].

(** What [db.list_collection_names()] does: it returns names, or raises an
    exception [e] whose [str(e)] is the message. *)
Inductive listing :=
| names_listed (names : list text)
| listing_raised (message : text).

(** The database handle as the probe uses it: [name] is [None] when the
    handle has no attribute [name]. *)
Record connection := mkconnection {
  name : option text;
  list_collection_names : listing
}.

Record response := mkresponse {
  backend : text;
  database : text;
  database_url : option text;
  database_name : option text;
  connection_status : text;
  collections : list text
}.

(** [test_database], given the handle [db] and what
    [os.getenv("DATABASE_URL")] returns. Nothing raises in the outer [try]
    outside the inner one, so its handler is not entered. *)
Definition test_database (db : option connection) (DATABASE_URL : option text)
  : response :=
  match db with
  | Some d =>
      let database_url :=
        match DATABASE_URL with
        | Some (_ :: _) => (check_mark ++ ascii_text " Set")%list
        | _ => (cross_mark ++ ascii_text " Not Set")%list
        end in
      let database_name :=
        match name d with
        | Some n => n
        | None => ascii_text "Unknown"
        end in
      match list_collection_names d with
      | names_listed collections =>
          mkresponse (check_mark ++ ascii_text " Running")%list
                     (check_mark ++ ascii_text " Connected & Working")%list
                     (Some database_url) (Some database_name)
                     (ascii_text "Connected")
                     (firstn 10 collections)
      | listing_raised message =>
          mkresponse (check_mark ++ ascii_text " Running")%list
                     (warning_sign ++ ascii_text "  Connected but Error: "
                                   ++ firstn 50 message)%list
                     (Some database_url) (Some database_name)
                     (ascii_text "Connected")
                     []
      end
  | None =>
      mkresponse (check_mark ++ ascii_text " Running")%list
                 (warning_sign ++ ascii_text "  Available but not initialized")%list
                 None None
                 (ascii_text "Not Connected")
                 []
  end.

End Diagnostics.

(** A valid payload whose one quantity, 2^1024, has no double. *)
Definition oversized_payload : CheckoutRequest :=
  mkrequest "Asha" "asha@example.com" "12 Market Road"
    [OrderItem.mk "almonds" "Premium Almonds" (2 ^ 1024) (lit 699)].

(** * Properties *)

(** ** Signs of rounded results *)

Section Shifts.

Lemma shr_1_m (mrs : shr_record) :
  0 <= shr_m mrs -> shr_m (shr_1 mrs) = shr_m mrs / 2.
Proof.
  destruct mrs as [m r s]; simpl.
  destruct m as [|p|p]; [reflexivity| |lia].
  intros _. destruct p as [p|p|]; simpl shr_m.
  - rewrite (Pos2Z.inj_xI p).
    apply (Z.div_unique_pos _ _ _ 1); lia.
  - rewrite (Pos2Z.inj_xO p).
    apply (Z.div_unique_pos _ _ _ 0); lia.
  - reflexivity.
Qed.

Lemma iter_shr_1_m (n : positive) :
  forall mrs, 0 <= shr_m mrs ->
    shr_m (SpecFloat.iter_pos shr_1 n mrs) = shr_m mrs / 2 ^ Zpos n.
Proof.
  induction n as [n IH|n IH|]; intros mrs Hm; simpl SpecFloat.iter_pos.
  - assert (H1 : 0 <= shr_m (shr_1 mrs))
      by (rewrite shr_1_m by assumption; apply Z.div_pos; lia).
    assert (H2 : 0 <= shr_m (SpecFloat.iter_pos shr_1 n (shr_1 mrs)))
      by (rewrite IH by assumption; apply Z.div_pos; lia).
    rewrite IH, IH, shr_1_m by assumption.
    rewrite !Z.div_div by lia.
    f_equal.
    replace (Z.pos n~1) with (1 + Z.pos n + Z.pos n) by lia.
    rewrite !Z.pow_add_r by lia. lia.
  - assert (H2 : 0 <= shr_m (SpecFloat.iter_pos shr_1 n mrs))
      by (rewrite IH by assumption; apply Z.div_pos; lia).
    rewrite IH, IH by assumption.
    rewrite !Z.div_div by lia.
    f_equal.
    replace (Z.pos n~0) with (Z.pos n + Z.pos n) by lia.
    rewrite !Z.pow_add_r by lia. lia.
  - rewrite shr_1_m by assumption. reflexivity.
Qed.

Lemma shr_record_of_loc_m (m : Z) (l : location) :
  shr_m (shr_record_of_loc m l) = m.
Proof. destruct l as [|[]]; reflexivity. Qed.

(** The mantissa left by [shr_fexp] is a quotient of the one given. *)
Lemma shr_fexp_m (m e : Z) (l : location) :
  0 <= m ->
  let k := fexp prec emax (Zdigits2 m + e) - e in
  shr_m (fst (shr_fexp prec emax m e l)) = (if 0 <? k then m / 2 ^ k else m) /\
  snd (shr_fexp prec emax m e l) = (if 0 <? k then e + k else e).
Proof.
  intros Hm k. unfold shr_fexp, shr. fold k.
  destruct k as [|p|p]; simpl; rewrite ?shr_record_of_loc_m; auto.
  rewrite iter_shr_1_m by (rewrite shr_record_of_loc_m; assumption).
  rewrite shr_record_of_loc_m. auto.
Qed.

Lemma digits2_pos_bounds (p : positive) :
  2 ^ (Zpos (digits2_pos p) - 1) <= Zpos p < 2 ^ Zpos (digits2_pos p).
Proof.
  induction p as [p IH|p IH|]; simpl digits2_pos.
  - rewrite Pos2Z.inj_succ. change (Z.pos p~1) with (2 * Z.pos p + 1).
    replace (Z.succ (Z.pos (digits2_pos p)) - 1)
      with (1 + (Z.pos (digits2_pos p) - 1)) by lia.
    rewrite Z.pow_succ_r by lia. rewrite Z.pow_add_r by lia.
    rewrite Z.pow_1_r. lia.
  - rewrite Pos2Z.inj_succ. change (Z.pos p~0) with (2 * Z.pos p).
    replace (Z.succ (Z.pos (digits2_pos p)) - 1)
      with (1 + (Z.pos (digits2_pos p) - 1)) by lia.
    rewrite Z.pow_succ_r by lia. rewrite Z.pow_add_r by lia.
    rewrite Z.pow_1_r. lia.
  - split; now vm_compute.
Qed.

Lemma shr_fexp_nonneg (m e : Z) (l : location) :
  0 <= m -> 0 <= shr_m (fst (shr_fexp prec emax m e l)).
Proof.
  intros Hm. destruct (shr_fexp_m m e l Hm) as [-> _].
  destruct (0 <? _); [|assumption].
  apply Z_div_nonneg_nonneg; [assumption | apply Z.pow_nonneg; lia].
Qed.

(** Above the least exponent, a shift never exhausts a positive mantissa. *)
Lemma shr_fexp_pos (m e : Z) (l : location) :
  0 < m -> emin prec emax <= e ->
  0 < shr_m (fst (shr_fexp prec emax m e l)) /\
  emin prec emax <= snd (shr_fexp prec emax m e l).
Proof.
  intros Hm He.
  destruct (shr_fexp_m m e l ltac:(lia)) as [-> ->].
  set (k := fexp prec emax (Zdigits2 m + e) - e).
  destruct (Z.ltb_spec 0 k) as [Hk|Hk]; [|lia].
  destruct m as [|p|p]; try lia. simpl Zdigits2 in k.
  pose proof (digits2_pos_bounds p) as [Hlo _].
  assert (Hkd : k <= Zpos (digits2_pos p) - 1)
    by (unfold k, fexp, emin, prec, emax in *; lia).
  split; [|lia].
  apply Z.div_str_pos. split; [lia|].
  eapply Z.le_trans; [|exact Hlo].
  apply Z.pow_le_mono_r; lia.
Qed.

Lemma round_nearest_even_ge (m : Z) (l : location) :
  m <= round_nearest_even m l.
Proof. destruct l as [|[]]; simpl; try lia. destruct (Z.even m); lia. Qed.

End Shifts.

Lemma ge0_nonneg (x : float) : ge0 x = nonneg x.
Proof. destruct x as [[]|[]| |[] m e]; reflexivity. Qed.

Section Rounding.

Variable s : bool.

Lemma binary_round_aux_sign (m e : Z) (l : location) :
  0 <= m -> sign_of (binary_round_aux prec emax s m e l) = Some s.
Proof.
  intros Hm. unfold binary_round_aux.
  pose proof (shr_fexp_nonneg m e l Hm) as H1.
  destruct (shr_fexp prec emax m e l) as [mrs' e']. simpl in H1.
  pose proof (round_nearest_even_ge (shr_m mrs') (loc_of_shr_record mrs')) as H2.
  pose proof (shr_fexp_nonneg
                (round_nearest_even (shr_m mrs') (loc_of_shr_record mrs'))
                e' loc_Exact ltac:(lia)) as H3.
  destruct (shr_fexp prec emax _ e' loc_Exact) as [mrs'' e'']. simpl in H3.
  destruct (shr_m mrs'') as [|p|p]; [reflexivity| |lia].
  destruct (e'' <=? emax - prec); reflexivity.
Qed.

Lemma binary_round_aux_nonzero (m e : Z) (l : location) :
  0 < m -> emin prec emax <= e ->
  is_zero (binary_round_aux prec emax s m e l) = false.
Proof.
  intros Hm He. unfold binary_round_aux.
  pose proof (shr_fexp_pos m e l Hm He) as [H1 He'].
  destruct (shr_fexp prec emax m e l) as [mrs' e']. simpl in H1, He'.
  pose proof (round_nearest_even_ge (shr_m mrs') (loc_of_shr_record mrs')) as H2.
  pose proof (shr_fexp_pos
                (round_nearest_even (shr_m mrs') (loc_of_shr_record mrs'))
                e' loc_Exact ltac:(lia) He') as [H3 _].
  destruct (shr_fexp prec emax _ e' loc_Exact) as [mrs'' e'']. simpl in H3.
  destruct (shr_m mrs'') as [|p|p]; [lia| |reflexivity].
  destruct (e'' <=? emax - prec); reflexivity.
Qed.

Lemma binary_round_sign (m : positive) (e : Z) :
  sign_of (binary_round prec emax s m e) = Some s.
Proof.
  unfold binary_round.
  destruct (shl_align m e _) as [mz ez].
  apply binary_round_aux_sign. lia.
Qed.

Lemma shl_align_exponent (m : positive) (e e' : Z) :
  emin prec emax <= e -> emin prec emax <= e' ->
  emin prec emax <= snd (shl_align m e e').
Proof.
  intros He He'. unfold shl_align.
  destruct (e' - e); simpl; assumption.
Qed.

Lemma binary_round_nonzero (m : positive) (e : Z) :
  emin prec emax <= e ->
  is_zero (binary_round prec emax s m e) = false.
Proof.
  intros He. unfold binary_round.
  pose proof (shl_align_exponent m e
                (fexp prec emax (Zpos (digits2_pos m) + e)) He
                ltac:(unfold fexp; lia)) as Hz.
  destruct (shl_align m e _) as [mz ez]. simpl in Hz.
  apply binary_round_aux_nonzero; [lia | assumption].
Qed.

End Rounding.

(** ** Closure of the non-negative floats under the handlers' arithmetic *)

Lemma of_int_posfin (z : Z) (f : float) :
  1 <= z -> of_int z = Some f -> posfin f = true.
Proof.
  intros Hz. unfold of_int, binary_normalize.
  destruct z as [|p|p]; try lia.
  pose proof (binary_round_sign false p 0) as Hs.
  pose proof (binary_round_nonzero false p 0 ltac:(vm_compute; discriminate)) as Hn.
  destruct (binary_round prec emax false p 0) as [t|t| |t m e];
    simpl in Hs, Hn; try discriminate; intros [= <-].
  injection Hs as ->. reflexivity.
Qed.

Lemma mul_nonneg_posfin (x y : float) :
  nonneg x = true -> posfin y = true -> nonneg (mul x y) = true.
Proof.
  intros Hx Hy.
  destruct y as [| | |[] my ey]; try discriminate.
  destruct x as [sx|[]| |[] mx ex]; try discriminate; try reflexivity.
  unfold mul, SFmul. simpl xorb.
  pose proof (binary_round_aux_sign false (Zpos (mx * my)) (ex + ey) loc_Exact
                ltac:(lia)) as Hs.
  destruct (binary_round_aux _ _ _ _ _ _) as [t|t| |t m e];
    simpl in Hs; try discriminate; try reflexivity;
    injection Hs as ->; reflexivity.
Qed.

Lemma add_nonneg (x y : float) :
  nonneg x = true -> nonneg y = true -> nonneg (add x y) = true.
Proof.
  intros Hx Hy.
  destruct x as [sx|[]| |[] mx ex]; try discriminate;
    destruct y as [sy|[]| |[] my ey]; try discriminate; try reflexivity.
  - destruct sx, sy; reflexivity.
  - unfold add, SFadd, cond_Zopp.
    rewrite <- Pos2Z.inj_add. unfold binary_normalize.
    pose proof (binary_round_sign false
                  (fst (shl_align mx ex (Z.min ex ey)) +
                   fst (shl_align my ey (Z.min ex ey)))
                  (Z.min ex ey)) as Hs.
    destruct (binary_round _ _ _ _ _) as [t|t| |t m e];
      simpl in Hs; try discriminate; try reflexivity;
      injection Hs as ->; reflexivity.
Qed.

Lemma of_ratio_sign (s : bool) (n d : positive) :
  sign_of (of_ratio s n d) = Some s.
Proof.
  unfold of_ratio, SFdiv_core_binary.
  set (m' := match _ with Z0 => Zpos n | Zpos _ => _ | Zneg _ => 0 end).
  assert (Hm' : 0 <= m').
  { unfold m'. destruct (_ - _); try lia. apply Z.shiftl_nonneg. lia. }
  pose proof (Z_div_mod m' (Zpos d) ltac:(lia)) as Hdiv.
  pose proof (Z.div_pos m' (Zpos d) Hm' ltac:(lia)) as Hq.
  unfold Z.div in Hq.
  destruct (Z.div_eucl m' (Zpos d)) as [q r].
  apply binary_round_aux_sign. exact Hq.
Qed.

Lemma round2_nonneg (x : float) : nonneg x = true -> nonneg (round2 x) = true.
Proof.
  intros Hx. destruct x as [sx|[]| |[] m e]; try discriminate; try reflexivity.
  unfold round2, of_decimal.
  destruct (scaled_hundredths m e) as [|p|p]; try reflexivity.
  pose proof (of_ratio_sign false p (10 ^ 2)) as Hs.
  destruct (of_ratio _ _ _) as [t|t| |t m' e'];
    simpl in Hs; try discriminate; try reflexivity;
    injection Hs as ->; reflexivity.
Qed.

(** ** Ints that have a double *)

Lemma Zdigits2_le (m n : Z) : 0 <= n -> 0 <= m < 2 ^ n -> Zdigits2 m <= n.
Proof.
  intros Hn [H0 Hm]. destruct m as [|p|p]; simpl; try lia.
  pose proof (digits2_pos_bounds p) as [Hlo _].
  destruct (Z.le_gt_cases (Zpos (digits2_pos p)) n) as [|Hgt]; [assumption|].
  exfalso.
  assert (2 ^ n <= 2 ^ (Zpos (digits2_pos p) - 1))
    by (apply Z.pow_le_mono_r; lia).
  lia.
Qed.

Lemma shl_align_bound (p : positive) (e e' n : Z) :
  e <= n -> Zpos p < 2 ^ (n - e) ->
  Zpos (fst (shl_align p e e')) < 2 ^ (n - snd (shl_align p e e')) /\
  snd (shl_align p e e') <= e.
Proof.
  intros Hn Hp. unfold shl_align.
  destruct (e' - e) as [|d|d] eqn:Hd; simpl; try (split; [assumption|lia]).
  split; [|lia].
  change (Pos.iter xO p d) with (shift_pos d p).
  rewrite shift_pos_correct.
  change (Z.pow_pos 2 d) with (2 ^ Zpos d).
  replace (n - e') with ((n - e) + Zpos d) by lia.
  rewrite Z.pow_add_r by lia.
  assert (0 < 2 ^ Zpos d) by (apply Z.pow_pos_nonneg; lia).
  nia.
Qed.

Lemma shr_fexp_bound (m e n : Z) (l : location) :
  emin prec emax <= n -> e <= n -> 0 <= m < 2 ^ (n - e) ->
  0 <= shr_m (fst (shr_fexp prec emax m e l))
    < 2 ^ (n - snd (shr_fexp prec emax m e l)) /\
  snd (shr_fexp prec emax m e l) = Z.max e (fexp prec emax (Zdigits2 m + e)).
Proof.
  intros Hmin Hn [H0 Hm].
  destruct (shr_fexp_m m e l H0) as [-> ->].
  pose proof (Zdigits2_le m (n - e) ltac:(lia) (conj H0 Hm)) as Hd.
  set (k := fexp prec emax (Zdigits2 m + e) - e).
  assert (Hk : k <= n - e) by (unfold k, fexp, prec in *; lia).
  destruct (Z.ltb_spec 0 k) as [Hpos|Hle].
  - split; [|unfold k in *; lia].
    assert (Hp : 0 < 2 ^ k) by (apply Z.pow_pos_nonneg; lia).
    split; [apply Z.div_pos; lia|].
    apply Z.div_lt_upper_bound; [assumption|].
    rewrite <- Z.pow_add_r by lia.
    replace (k + (n - (e + k))) with (n - e) by lia. assumption.
  - split; [split; assumption | unfold k in *; lia].
Qed.

Lemma round_nearest_even_le (m : Z) (l : location) :
  round_nearest_even m l <= m + 1.
Proof. destruct l as [|[]]; simpl; try lia. destruct (Z.even m); lia. Qed.

(** Every int from 0 to below 2^1023 has a double. *)
Lemma of_int_bounded (z : Z) : 0 <= z < 2 ^ 1023 -> is_Some (of_int z).
Proof.
  intros [H0 Hz]. unfold of_int, binary_normalize.
  destruct z as [|p|p]; [eauto| |lia].
  unfold binary_round.
  pose proof (shl_align_bound p 0 (fexp prec emax (Zpos (digits2_pos p) + 0)) 1023
                ltac:(lia) Hz) as [Hmz Hez].
  destruct (shl_align p 0 _) as [mz ez]. cbn [fst snd] in Hmz, Hez.
  unfold binary_round_aux.
  pose proof (shr_fexp_bound (Zpos mz) ez 1023 loc_Exact
                ltac:(vm_compute; discriminate) ltac:(lia) ltac:(lia))
    as [[H1 H1'] He'].
  pose proof (Zdigits2_le (Zpos mz) (1023 - ez) ltac:(lia) ltac:(lia)) as Hd.
  destruct (shr_fexp prec emax (Zpos mz) ez loc_Exact) as [mrs' e'].
  cbn [fst snd] in H1, H1', He'.
  assert (He970 : e' <= 970) by (unfold fexp, emin, prec, emax in He'; lia).
  pose proof (round_nearest_even_ge (shr_m mrs') (loc_of_shr_record mrs')) as Hge.
  pose proof (round_nearest_even_le (shr_m mrs') (loc_of_shr_record mrs')) as Hle.
  set (m1 := round_nearest_even (shr_m mrs') (loc_of_shr_record mrs')) in *.
  assert (Hm1 : 0 <= m1 < 2 ^ (1024 - e')).
  { split; [lia|].
    replace (1024 - e') with (1 + (1023 - e')) by lia.
    rewrite Z.pow_add_r by lia. rewrite Z.pow_1_r.
    assert (0 < 2 ^ (1023 - e')) by (apply Z.pow_pos_nonneg; lia). lia. }
  pose proof (shr_fexp_bound m1 e' 1024 loc_Exact
                ltac:(vm_compute; discriminate) ltac:(lia) Hm1) as [_ He''].
  pose proof (Zdigits2_le m1 (1024 - e') ltac:(lia) Hm1) as Hd1.
  destruct (shr_fexp prec emax m1 e' loc_Exact) as [mrs'' e''].
  cbn [fst snd] in He''.
  assert (Hfin : (e'' <=? emax - prec) = true)
    by (apply Z.leb_le; unfold fexp, emin, prec, emax in *; lia).
  rewrite Hfin. destruct (shr_m mrs''); eauto.
Qed.

(** ** Numbers met by [checkout] *)

Lemma of_int_0 : of_int 0 = Some zero.
Proof. reflexivity. Qed.

Lemma to_float_good (n : number) :
  good n = true -> exists f, to_float n = Ok f /\ nonneg f = true.
Proof.
  destruct n as [z|f]; simpl; intros H.
  - apply Z.eqb_eq in H. subst z. rewrite of_int_0. eauto.
  - eauto.
Qed.

Lemma good_floatable (n : number) : good n = true -> floatable n.
Proof.
  destruct n as [z|f]; simpl; [|trivial].
  intros H. apply Z.eqb_eq in H. subst z. rewrite of_int_0. eauto.
Qed.

Lemma to_float_floatable (n : number) :
  floatable n -> exists f, to_float n = Ok f.
Proof.
  destruct n as [z|f]; simpl; [|eauto].
  intros [f ->]. eauto.
Qed.

Lemma number_add_float (a : number) (f : float) :
  number_add a (NFloat f) = let* x := to_float a in Ok (NFloat (add x f)).
Proof. destruct a; reflexivity. Qed.

Lemma number_mul_float (a : number) (f : float) :
  number_mul a (NFloat f) = let* x := to_float a in Ok (NFloat (mul x f)).
Proof. destruct a; reflexivity. Qed.

Lemma line_amount_eq (i : OrderItem.t) :
  line_amount i =
  match of_int (OrderItem.quantity i) with
  | Some q => Ok (NFloat (mul (OrderItem.price i) q))
  | None => Raise OverflowError
  end.
Proof. unfold line_amount. simpl. destruct (of_int _); reflexivity. Qed.

Lemma line_amount_fits (i : OrderItem.t) :
  fits i -> exists f, line_amount i = Ok (NFloat f).
Proof. intros [q Hq]. rewrite line_amount_eq, Hq. eauto. Qed.

(** Quantities from 0 to below 2^1023 fit. *)
Lemma fits_bounded (i : OrderItem.t) :
  0 <= OrderItem.quantity i < 2 ^ 1023 -> fits i.
Proof. apply of_int_bounded. Qed.

Lemma line_amount_raise (i : OrderItem.t) (e : exn) :
  line_amount i = Raise e -> e = OverflowError /\ ~ fits i.
Proof.
  rewrite line_amount_eq. unfold fits.
  destruct (of_int _) as [q|]; [discriminate|].
  intros [= <-]. split; [reflexivity|]. intros [q Hq]. discriminate.
Qed.

Lemma line_amount_good (i : OrderItem.t) (v : number) :
  OrderItem.valid i = true -> line_amount i = Ok v -> good v = true.
Proof.
  unfold OrderItem.valid. rewrite ge0_nonneg.
  intros [Hq Hp]%andb_true_iff. apply Z.leb_le in Hq.
  rewrite line_amount_eq.
  destruct (of_int _) as [q|] eqn:Eq; [|discriminate].
  intros [= <-]. simpl.
  apply mul_nonneg_posfin; [assumption|].
  eapply of_int_posfin; eassumption.
Qed.

(** ** The loop of [sum] *)

Lemma sums_to_cons (acc acc' v : number) (l : list number) (s : number) :
  number_add acc v = Ok acc' -> sums_to acc' l s -> sums_to acc (v :: l) s.
Proof.
  intros Hadd H. induction H as [|l s v' s' H IH Hs].
  - apply (sums_snoc acc [] acc v acc'); [constructor | assumption].
  - apply (sums_snoc acc (v :: l) s v' s'); assumption.
Qed.

Lemma sum_from_sums_to (items : list OrderItem.t) :
  forall acc s, sum_from acc line_amount items = Ok s ->
    exists amounts,
      Forall2 (fun i v => line_amount i = Ok v) items amounts /\
      sums_to acc amounts s.
Proof.
  induction items as [|i rest IH]; intros acc s; simpl.
  - intros [= <-]. exists []. split; constructor.
  - destruct (line_amount i) as [v|e] eqn:Hv; [|discriminate]. simpl.
    destruct (number_add acc v) as [acc'|e] eqn:Ha; [|discriminate]. simpl.
    intros H. destruct (IH _ _ H) as (amounts & HF & Hs).
    exists (v :: amounts). split.
    + constructor; assumption.
    + eapply sums_to_cons; eassumption.
Qed.

Lemma sum_from_good (items : list OrderItem.t) :
  Forall (fun i => OrderItem.valid i = true) items ->
  forall acc s, good acc = true ->
    sum_from acc line_amount items = Ok s -> good s = true.
Proof.
  induction 1 as [|i rest Hi _ IH]; intros acc s Hacc; simpl.
  - intros [= <-]. assumption.
  - destruct (line_amount i) as [v|e] eqn:Hv; [|discriminate]. simpl.
    pose proof (line_amount_good i v Hi Hv) as Hgv.
    destruct v as [z|f];
      [rewrite line_amount_eq in Hv; destruct (of_int _); discriminate|].
    rewrite number_add_float.
    destruct (to_float_good acc Hacc) as (a & -> & Ha). simpl.
    apply IH. simpl. apply add_nonneg; assumption.
Qed.

Lemma sum_from_floatable (items : list OrderItem.t) :
  Forall fits items ->
  forall acc, floatable acc ->
    exists s, sum_from acc line_amount items = Ok s /\ floatable s.
Proof.
  induction 1 as [|i rest Hi _ IH]; intros acc Hacc; simpl.
  - eauto.
  - destruct (line_amount_fits i Hi) as [f ->]. simpl.
    rewrite number_add_float.
    destruct (to_float_floatable acc Hacc) as [a ->]. simpl.
    apply IH. exact I.
Qed.

Lemma sum_from_ok_floatable (items : list OrderItem.t) :
  forall acc s, floatable acc ->
    sum_from acc line_amount items = Ok s -> floatable s.
Proof.
  induction items as [|i rest IH]; intros acc s Hacc; simpl.
  - intros [= <-]. assumption.
  - destruct (line_amount i) as [v|e] eqn:Hv; [|discriminate]. simpl.
    destruct v as [z|f];
      [rewrite line_amount_eq in Hv; destruct (of_int _); discriminate|].
    rewrite number_add_float.
    destruct (to_float_floatable acc Hacc) as [a ->]. simpl.
    apply IH. exact I.
Qed.

(** The loop raises nothing but the overflow of a quantity. *)
Lemma sum_from_raise (items : list OrderItem.t) :
  forall acc e, floatable acc ->
    sum_from acc line_amount items = Raise e ->
    e = OverflowError /\ Exists (fun i => ~ fits i) items.
Proof.
  induction items as [|i rest IH]; intros acc e Hacc; simpl; [discriminate|].
  destruct (line_amount i) as [v|e'] eqn:Hv; simpl.
  - destruct v as [z|f];
      [rewrite line_amount_eq in Hv; destruct (of_int _); discriminate|].
    rewrite number_add_float.
    destruct (to_float_floatable acc Hacc) as [a ->]. simpl.
    intros H. destruct (IH (NFloat (add a f)) e I H) as [-> Hex].
    split; [reflexivity | apply Exists_cons_tl; assumption].
  - intros [= <-]. destruct (line_amount_raise i e' Hv) as [-> Hn].
    split; [reflexivity | apply Exists_cons_hd; assumption].
Qed.

(** ** The three amounts *)

(** What [totals] returns, read on floats. *)
Lemma totals_ok (items : list OrderItem.t) (sub tax tot : number) :
  totals items = Ok (sub, tax, tot) ->
  sum line_amount items = Ok sub /\
  exists s : float,
    to_float sub = Ok s /\
    tax = NFloat (round2 (mul s rate)) /\
    tot = NFloat (round2 (add s (round2 (mul s rate)))).
Proof.
  unfold totals.
  destruct (sum line_amount items) as [sub'|e]; [|discriminate]. simpl.
  rewrite number_mul_float.
  destruct (to_float sub') as [s|e] eqn:Hs; [|discriminate]. simpl.
  rewrite number_add_float, Hs. simpl.
  intros [= <- <- <-]. split; [reflexivity|].
  exists s. rewrite Hs. auto.
Qed.

Lemma totals_fits (items : list OrderItem.t) :
  Forall fits items -> exists r, totals items = Ok r.
Proof.
  intros Hf. unfold totals, sum.
  destruct (sum_from_floatable items Hf (NInt 0)) as (sub & -> & Hsub).
  { simpl. rewrite of_int_0. eauto. }
  simpl. rewrite number_mul_float.
  destruct (to_float_floatable sub Hsub) as [s Hs]. rewrite Hs. simpl.
  rewrite number_add_float, Hs. simpl. eauto.
Qed.

Lemma totals_raise (items : list OrderItem.t) (e : exn) :
  totals items = Raise e ->
  e = OverflowError /\ Exists (fun i => ~ fits i) items.
Proof.
  unfold totals, sum.
  assert (H0 : floatable (NInt 0)) by (simpl; rewrite of_int_0; eauto).
  destruct (sum_from (NInt 0) line_amount items) as [sub|e'] eqn:Hsum; simpl.
  - pose proof (sum_from_ok_floatable items _ _ H0 Hsum) as Hsub.
    rewrite number_mul_float.
    destruct (to_float_floatable sub Hsub) as [s Hs]. rewrite Hs. simpl.
    rewrite number_add_float, Hs. simpl. discriminate.
  - intros [= <-]. eapply sum_from_raise; eassumption.
Qed.

Lemma posfin_rate : posfin rate = true.
Proof. reflexivity. Qed.

(** Validated items give amounts that pass the [ge=0] checks. *)
Lemma totals_good (items : list OrderItem.t) (sub tax tot : number) :
  Forall (fun i => OrderItem.valid i = true) items ->
  totals items = Ok (sub, tax, tot) ->
  good sub = true /\ good tax = true /\ good tot = true.
Proof.
  intros Hv Ht.
  destruct (totals_ok items sub tax tot Ht) as (Hsum & s & Hs & -> & ->).
  assert (Hsub : good sub = true)
    by (eapply (sum_from_good items Hv (NInt 0)); [reflexivity | exact Hsum]).
  destruct (to_float_good sub Hsub) as (s' & Hs' & Hn).
  rewrite Hs in Hs'. injection Hs' as <-.
  assert (Htax : nonneg (round2 (mul s rate)) = true)
    by (apply round2_nonneg, mul_nonneg_posfin; [assumption | exact posfin_rate]).
  repeat split; try assumption.
  simpl. apply round2_nonneg, add_nonneg; assumption.
Qed.

Lemma float_field_good (name : string) (v : number) :
  good v = true ->
  exists f, to_float v = Ok f /\ Order.float_field name v = (f, []).
Proof.
  destruct v as [z|f]; simpl; intros H.
  - apply Z.eqb_eq in H. subst z. rewrite of_int_0.
    exists zero. split; reflexivity.
  - exists f. rewrite ge0_nonneg, H. split; reflexivity.
Qed.

Lemma Order_new_good (n e a : string) (items : list OrderItem.t)
    (sub tax tot : number) :
  good sub = true -> good tax = true -> good tot = true ->
  exists fs ft fo,
    to_float sub = Ok fs /\ to_float tax = Ok ft /\ to_float tot = Ok fo /\
    Order.new n e a items sub tax tot = Ok (Order.mk n e None a items fs ft fo).
Proof.
  intros Hs Ht Ho. unfold Order.new.
  destruct (float_field_good "subtotal" sub Hs) as (fs & Hfs & ->).
  destruct (float_field_good "tax" tax Ht) as (ft & Hft & ->).
  destruct (float_field_good "total" tot Ho) as (fo & Hfo & ->).
  exists fs, ft, fo. auto.
Qed.

(** ** One run of each handler on a configured database *)

Lemma checkout_run (payload : CheckoutRequest) (s : database) (j : list db_op) :
  checkout payload (mkworld (Some s) j) =
  match totals (items payload) with
  | Raise e => (Raise e, mkworld (Some s) j)
  | Ok (sub, tax, tot) =>
      match Order.new (customer_name payload) (customer_email payload)
                      (shipping_address payload) (items payload) sub tax tot with
      | Raise e => (Raise e, mkworld (Some s) j)
      | Ok o =>
          (Ok (mkcheckout "success" (next_id s) tot),
           mkworld
             (Some (mkdb (<["order" := (collection s "order" ++
                                          [(next_id s, OrderDoc o)])%list]>
                            (collections s))
                         (S (next_id s))))
             (j ++ [insert_op "order" (OrderDoc o)]))
      end
  end.
Proof.
  unfold checkout, bind, require_db, lift, create_document, ret. simpl.
  destruct (totals (items payload)) as [[[sub tax] tot]|e]; [|reflexivity].
  destruct (Order.new _ _ _ _ _ _ _) as [o|e]; reflexivity.
Qed.

Lemma collection_insert (m : gmap string (list (nat * document))) (i : nat)
    (name name' : string) (l : list (nat * document)) :
  collection (mkdb (<[name := l]> m) i) name' =
  if decide (name = name') then l else collection (mkdb m i) name'.
Proof.
  unfold collection. simpl.
  destruct (decide (name = name')) as [->|Hne].
  - rewrite lookup_insert_eq. reflexivity.
  - rewrite lookup_insert_ne by assumption. reflexivity.
Qed.

Lemma filter_matches_all (l : list (nat * document)) :
  List.filter (matches []) l = l.
Proof. induction l as [|d l IH]; simpl; [|rewrite IH]; reflexivity. Qed.

(** The loop of [seed_products] on products that pass validation. *)
Lemma seed_loop (ps : list Product.t) :
  Forall (fun p => Product.new p = Ok p) ps ->
  forall (s : database) (j : list db_op),
  exists s',
    for_each ps (fun p =>
        let! e := lift (Product.new p) in
        let! _ := create_document "product" (ProductDoc e) in
        ret tt) (mkworld (Some s) j)
    = (Ok tt, mkworld (Some s')
                (j ++ map (fun p => insert_op "product" (ProductDoc p)) ps)) /\
    collection s' "product" = (collection s "product" ++ numbered (next_id s) ps)%list /\
    (forall name, name <> "product" -> collection s' name = collection s name).
Proof.
  induction 1 as [|p ps Hp _ IH]; intros s j.
  - exists s. simpl. unfold ret. rewrite !app_nil_r. destruct s. auto.
  - simpl for_each. unfold bind at 1. unfold bind at 1. unfold lift at 1.
    rewrite Hp. unfold bind at 1. unfold create_document at 1. simpl db.
    unfold ret at 1. cbv iota beta.
    edestruct IH as (s' & -> & Hc & Ho).
    exists s'. split; [|split].
    + simpl. rewrite <- app_assoc. reflexivity.
    + rewrite Hc. rewrite collection_insert.
      destruct (decide _) as [_|Hne]; [|congruence].
      simpl. rewrite <- app_assoc. reflexivity.
    + intros name Hn. rewrite (Ho name Hn). rewrite collection_insert.
      destruct (decide _) as [He|_]; [congruence|]. destruct s; reflexivity.
Qed.

Lemma products_valid : Forall (fun p => Product.new p = Ok p) products.
Proof. repeat constructor. Qed.

Lemma seed_run_seeded (s : database) (j : list db_op) :
  collection s "product" <> [] ->
  seed_products (mkworld (Some s) j) =
  (Ok (mkseed "ok" (Some "Products already seeded") None),
   mkworld (Some s) (j ++ [count_op "product" []])).
Proof.
  intros Hne. unfold seed_products, bind, require_db, count_documents. simpl.
  rewrite filter_matches_all.
  destruct (collection s "product"); [congruence|reflexivity].
Qed.

Lemma seed_run_empty (s : database) (j : list db_op) :
  collection s "product" = [] ->
  exists s',
    seed_products (mkworld (Some s) j) =
    (Ok (mkseed "ok" None (Some 11%nat)),
     mkworld (Some s')
       (j ++ count_op "product" [] ::
             map (fun p => insert_op "product" (ProductDoc p)) products)) /\
    collection s' "product" = numbered (next_id s) products /\
    (forall name, name <> "product" -> collection s' name = collection s name).
Proof.
  intros He.
  destruct (seed_loop products products_valid s (j ++ [count_op "product" []]))
    as (s' & Hrun & Hc & Ho).
  exists s'. split; [|split].
  - unfold seed_products, bind at 1, require_db. simpl db. cbv iota beta.
    unfold bind at 1, count_documents at 1. simpl db. cbv iota beta.
    rewrite filter_matches_all, He. simpl journal.
    change (0 <? Z.of_nat (length (@nil (nat * document)))) with false.
    cbv iota. unfold bind at 1. rewrite Hrun. unfold ret.
    rewrite <- app_assoc. reflexivity.
  - rewrite Hc, He. reflexivity.
  - exact Ho.
Qed.

Lemma list_run (category : option string) (s : database) (j : list db_op) :
  let q : query :=
    match category with
    | Some c => if truthy category then [("category", c)] else []
    | None => []
    end in
  list_products category (mkworld (Some s) j) =
  (append_products (List.filter (matches q) (collection s "product")) [],
   mkworld (Some s) (j ++ [find_op "product" q])).
Proof. reflexivity. Qed.

Lemma append_products_ok (docs : list (nat * document)) :
  Forall (fun d => is_product d = true) docs ->
  forall acc, append_products docs acc = Ok (acc ++ products_in docs)%list.
Proof.
  induction 1 as [|[i d] docs Hd _ IH]; intros acc; simpl.
  - rewrite app_nil_r. reflexivity.
  - unfold is_product in Hd. simpl in Hd.
    destruct d as [p|o]; [|discriminate]. simpl.
    unfold Product.new. rewrite Hd. simpl.
    rewrite IH, <- app_assoc. reflexivity.
Qed.

Lemma Forall_filter_bool {A} (P : A -> Prop) (f : A -> bool) (l : list A) :
  Forall P l -> Forall P (List.filter f l).
Proof.
  induction 1 as [|x l Hx _ IH]; simpl; [constructor|].
  destruct (f x); [constructor|]; assumption.
Qed.

(** On product records, the query [{"category": c}] keeps the products
    whose category is exactly [c]. *)
Lemma products_in_filter (c : string) (docs : list (nat * document)) :
  Forall (fun d => is_product d = true) docs ->
  products_in (List.filter (matches [("category", c)]) docs) =
  List.filter (fun p => String.eqb (Product.category p) c) (products_in docs).
Proof.
  induction 1 as [|[i d] docs Hd _ IH]; [reflexivity|].
  unfold is_product in Hd. simpl in Hd.
  destruct d as [p|o]; [|discriminate].
  simpl. rewrite andb_true_r.
  destruct (String.eqb (Product.category p) c); simpl; rewrite IH; reflexivity.
Qed.

Lemma list_run_valid (category : option string) (s : database) (j : list db_op) :
  Forall (fun d => is_product d = true) (collection s "product") ->
  list_products category (mkworld (Some s) j) =
  match category with
  | Some c =>
      if truthy category then
        (Ok (List.filter (fun p => String.eqb (Product.category p) c)
                         (stored_products s)),
         mkworld (Some s) (j ++ [find_op "product" [("category", c)]]))
      else (Ok (stored_products s), mkworld (Some s) (j ++ [find_op "product" []]))
  | None => (Ok (stored_products s), mkworld (Some s) (j ++ [find_op "product" []]))
  end.
Proof.
  intros Hv. rewrite list_run. unfold stored_products.
  destruct category as [c|]; [destruct (truthy (Some c))|].
  - rewrite append_products_ok by (apply Forall_filter_bool; exact Hv).
    rewrite products_in_filter by exact Hv. reflexivity.
  - rewrite filter_matches_all, append_products_ok by exact Hv. reflexivity.
  - rewrite filter_matches_all, append_products_ok by exact Hv. reflexivity.
Qed.

(** ** Stored orders are only ever added to *)

Lemma serve_orders (w : world) (r : request) :
  exists k, orders (serve w r) = (orders w ++ k)%list.
Proof.
  destruct w as [[s|] j].
  2:{ exists []. destruct r; reflexivity. }
  destruct r as [|category|payload]; unfold serve.
  - destruct (collection s "product") as [|d l] eqn:Hc.
    + destruct (seed_run_empty s j Hc) as (s' & -> & _ & Ho).
      exists []. unfold orders. simpl.
      rewrite Ho by discriminate. rewrite app_nil_r. reflexivity.
    + rewrite seed_run_seeded by (rewrite Hc; discriminate).
      exists []. simpl. rewrite app_nil_r. reflexivity.
  - rewrite list_run. exists []. simpl. rewrite app_nil_r. reflexivity.
  - rewrite checkout_run.
    destruct (totals (items payload)) as [[[sub tax] tot]|e].
    2:{ exists []. simpl. rewrite app_nil_r. reflexivity. }
    destruct (Order.new _ _ _ _ _ _ _) as [o|e].
    2:{ exists []. simpl. rewrite app_nil_r. reflexivity. }
    exists [(next_id s, OrderDoc o)]. unfold orders. simpl db. cbv iota beta.
    rewrite collection_insert. destruct (decide _); [reflexivity|congruence].
Qed.

Lemma serve_all_orders (rs : list request) :
  forall w, exists k, orders (fold_left serve rs w) = (orders w ++ k)%list.
Proof.
  induction rs as [|r rs IH]; intros w; simpl.
  - exists []. rewrite app_nil_r. reflexivity.
  - destruct (IH (serve w r)) as [k ->].
    destruct (serve_orders w r) as [k' ->].
    exists (k' ++ k)%list. rewrite app_assoc. reflexivity.
Qed.

Lemma float_field_ok (name : string) (v : number) (f : float) :
  Order.float_field name v = (f, []) -> to_float v = Ok f /\ ge0 f = true.
Proof.
  destruct v as [z|g]; simpl.
  - destruct (of_int z) as [g|]; [|discriminate].
    destruct (ge0 g) eqn:Hg; [|discriminate]. intros [= <-]. auto.
  - destruct (ge0 g) eqn:Hg; [|discriminate]. intros [= <-]. auto.
Qed.

(** What a constructed order holds. *)
Lemma Order_new_ok (n e a : string) (items : list OrderItem.t)
    (sub tax tot : number) (o : Order.t) :
  Order.new n e a items sub tax tot = Ok o ->
  exists fs ft fo,
    o = Order.mk n e None a items fs ft fo /\
    to_float sub = Ok fs /\ to_float tax = Ok ft /\ to_float tot = Ok fo /\
    ge0 fs = true /\ ge0 ft = true /\ ge0 fo = true.
Proof.
  unfold Order.new.
  destruct (Order.float_field "subtotal" sub) as [fs es] eqn:Hs.
  destruct (Order.float_field "tax" tax) as [ft et] eqn:Ht.
  destruct (Order.float_field "total" tot) as [fo eo] eqn:Ho.
  destruct es as [|? ?]; [|discriminate].
  destruct et as [|? ?]; [|discriminate].
  destruct eo as [|? ?]; [|discriminate].
  simpl. intros [= <-].
  apply float_field_ok in Hs, Ht, Ho.
  exists fs, ft, fo. intuition.
Qed.

Lemma good_ge0 (n : number) : good n = true -> number_ge0 n = true.
Proof.
  destruct n as [z|f]; simpl.
  - intros H. apply Z.eqb_eq in H. subst z. reflexivity.
  - rewrite ge0_nonneg. trivial.
Qed.

(** A quantity with no double makes the amounts overflow. *)
Lemma sum_from_overflow (items : list OrderItem.t) :
  Exists (fun i => ~ fits i) items ->
  forall acc, floatable acc ->
    sum_from acc line_amount items = Raise OverflowError.
Proof.
  induction 1 as [i rest Hi|i rest _ IH]; intros acc Hacc; simpl.
  - rewrite line_amount_eq. unfold fits in Hi.
    destruct (of_int _) as [q|]; [exfalso; apply Hi; eauto | reflexivity].
  - rewrite line_amount_eq.
    destruct (of_int _) as [q|]; [|reflexivity]. simpl.
    rewrite number_add_float.
    destruct (to_float_floatable acc Hacc) as [a ->]. simpl.
    apply IH. exact I.
Qed.

Lemma totals_overflow (items : list OrderItem.t) :
  Exists (fun i => ~ fits i) items -> totals items = Raise OverflowError.
Proof.
  intros H. unfold totals, sum.
  rewrite (sum_from_overflow items H (NInt 0)); [reflexivity|].
  simpl. rewrite of_int_0. eauto.
Qed.

Lemma length_numbered (ps : list Product.t) :
  forall i, length (numbered i ps) = length ps.
Proof. induction ps as [|p ps IH]; intros i; simpl; [|rewrite IH]; reflexivity. Qed.

Lemma numbered_in_stock (ps : list Product.t) :
  Forall (fun p => Product.in_stock p = true) ps ->
  forall i, Forall (fun d => exists p, snd d = ProductDoc p /\ Product.in_stock p = true)
                   (numbered i ps).
Proof.
  induction 1 as [|p ps Hp _ IH]; intros i; simpl; constructor; eauto.
Qed.

Lemma products_in_stock : Forall (fun p => Product.in_stock p = true) products.
Proof. repeat constructor. Qed.

Lemma collection_store_order (s : database) (o : Order.t) (name : string) :
  collection (store_order s o) name =
  if decide ("order" = name)
  then (collection s "order" ++ [(next_id s, OrderDoc o)])%list
  else collection s name.
Proof.
  unfold store_order. rewrite collection_insert.
  destruct (decide _); [reflexivity|]. destruct s; reflexivity.
Qed.

(** A successful checkout adds one order, built from the amounts. *)
Lemma checkout_ok (payload : CheckoutRequest) (w w' : world)
    (resp : checkout_response) :
  checkout payload w = (Ok resp, w') ->
  exists s sub tax tot o,
    db w = Some s /\
    totals (items payload) = Ok (sub, tax, tot) /\
    Order.new (customer_name payload) (customer_email payload)
              (shipping_address payload) (items payload) sub tax tot = Ok o /\
    resp = mkcheckout "success" (next_id s) tot /\
    w' = mkworld (Some (store_order s o))
                 (journal w ++ [insert_op "order" (OrderDoc o)]) /\
    orders w' = (orders w ++ [(next_id s, OrderDoc o)])%list.
Proof.
  destruct w as [[s|] j]; [|discriminate].
  rewrite checkout_run.
  destruct (totals (items payload)) as [[[sub tax] tot]|e] eqn:Ht; [|discriminate].
  destruct (Order.new _ _ _ _ _ _ _) as [o|e] eqn:Hn; [|discriminate].
  intros [= <- <-].
  exists s, sub, tax, tot, o. repeat split; try assumption.
  unfold orders. simpl db. cbv iota beta.
  rewrite collection_insert. destruct (decide _); [reflexivity|congruence].
Qed.

(** [valid] is the acceptance of an item by its constructor. *)
Lemma OrderItem_new_valid (i : OrderItem.t) :
  OrderItem.new i = Ok i <-> OrderItem.valid i = true.
Proof.
  unfold OrderItem.new, OrderItem.errors, OrderItem.valid.
  destruct (1 <=? OrderItem.quantity i), (ge0 (OrderItem.price i)); simpl;
    split; intros H; (reflexivity || discriminate H).
Qed.

(** ** Every product record stored through the handlers is a product *)

Lemma numbered_is_product (ps : list Product.t) :
  Forall (fun p => Product.new p = Ok p) ps ->
  forall i, Forall (fun d => is_product d = true) (numbered i ps).
Proof.
  induction 1 as [|p ps Hp _ IH]; intros i; simpl; constructor; [|apply IH].
  unfold is_product. simpl. unfold Product.new in Hp.
  destruct (ge0 (Product.price p)); [reflexivity|discriminate].
Qed.

Lemma serve_product_records (w : world) (r : request) :
  product_records_valid w -> product_records_valid (serve w r).
Proof.
  destruct w as [[s|] j]; [|destruct r; intros _; exact I].
  unfold product_records_valid at 1. simpl db. intros Hv.
  destruct r as [|category|payload]; unfold serve.
  - destruct (collection s "product") as [|d l] eqn:Hc.
    + destruct (seed_run_empty s j Hc) as (s' & -> & Hc' & _).
      unfold product_records_valid. simpl. rewrite Hc'.
      apply numbered_is_product, products_valid.
    + rewrite seed_run_seeded by (rewrite Hc; discriminate).
      exact Hv.
  - rewrite list_run. exact Hv.
  - rewrite checkout_run.
    destruct (totals (items payload)) as [[[sub tax] tot]|e]; [|exact Hv].
    destruct (Order.new _ _ _ _ _ _ _) as [o|e]; [|exact Hv].
    unfold product_records_valid. simpl db. cbv iota beta.
    rewrite collection_insert. destruct (decide _); [discriminate|exact Hv].
Qed.

Lemma reachable_product_records (rs : list request) :
  forall w, product_records_valid w -> product_records_valid (fold_left serve rs w).
Proof.
  induction rs as [|r rs IH]; intros w Hw; simpl; [exact Hw|].
  apply IH, serve_product_records, Hw.
Qed.

Lemma lt_zero_not_ge0 (x : float) : PyFloat.lt x zero = true -> ge0 x = false.
Proof. destruct x as [[]|[]| |[] m e]; simpl; intros H; try discriminate; reflexivity. Qed.

(** * The claims *)

(** C1. For every list of order items, the amounts computed by checkout
    satisfy: the subtotal is the sum, from left to right and from the empty
    sum 0, of price times quantity over the items; the tax is
    round(subtotal * 0.05, 2); the total is round(subtotal + tax, 2). The
    amounts are computed whenever every quantity has a double, as those
    from 0 to below 2^1023 have. On two items at 699.0 and one at 299.0
    they are 1697.0, 84.85 and 1781.85. *)
Theorem C1_checkout_totals :
  (forall (items : list OrderItem.t) (sub tax tot : number),
     totals items = Ok (sub, tax, tot) ->
     (exists amounts,
        Forall2 (fun i v => line_amount i = Ok v) items amounts /\
        sums_to (NInt 0) amounts sub) /\
     (exists s : float,
        to_float sub = Ok s /\
        tax = NFloat (round2 (mul s rate)) /\
        tot = NFloat (round2 (add s (round2 (mul s rate)))))) /\
  (forall items : list OrderItem.t,
     Forall fits items -> exists r, totals items = Ok r) /\
  (forall i : OrderItem.t, 0 <= OrderItem.quantity i < 2 ^ 1023 -> fits i) /\
  (forall id1 title1 id2 title2 : string,
     totals [OrderItem.mk id1 title1 2 (lit 699);
             OrderItem.mk id2 title2 1 (lit 299)] =
     Ok (NFloat (lit 1697),
         NFloat (of_decimal false 8485 (-2)),
         NFloat (of_decimal false 178185 (-2)))).
Proof.
  split; [|split; [|split]].
  - intros items sub tax tot Ht.
    destruct (totals_ok items sub tax tot Ht) as (Hsum & Hrest).
    split; [|exact Hrest].
    apply sum_from_sums_to. exact Hsum.
  - exact totals_fits.
  - exact fits_bounded.
  - intros. vm_compute. reflexivity.
Qed.

Lemma C1_checkout_totals_witness :
  totals example_items =
    Ok (NFloat (lit 1697), NFloat (of_decimal false 8485 (-2)),
        NFloat (of_decimal false 178185 (-2))) /\
  Forall fits example_items /\
  (exists amounts,
     Forall2 (fun i v => line_amount i = Ok v) example_items amounts /\
     sums_to (NInt 0) amounts (NFloat (lit 1697))) /\
  (exists r, totals example_items = Ok r).
Proof.
  assert (H : totals example_items =
              Ok (NFloat (lit 1697), NFloat (of_decimal false 8485 (-2)),
                  NFloat (of_decimal false 178185 (-2))))
    by (vm_compute; reflexivity).
  assert (F : Forall fits example_items)
    by (repeat constructor; vm_compute; eauto).
  split; [exact H|]. split; [exact F|]. split.
  - exact (proj1 (proj1 C1_checkout_totals example_items _ _ _ H)).
  - exact (proj1 (proj2 C1_checkout_totals) example_items F).
Defined.

(** C2, as stated, fails: with one item priced 0.001 the stored subtotal is
    0.001 and the stored tax 0.0, but the stored total is
    round(0.001 + 0.0, 2) = 0.0, which is not their sum 0.001. *)
Lemma C2_total_not_exact_sum :
  exists (i : nat) (o : Order.t) (w' : world),
    checkout tiny_payload empty_world = (Ok (mkcheckout "success" i (NFloat zero)), w') /\
    orders w' = [(i, OrderDoc o)] /\
    Order.subtotal o = of_decimal false 1 (-3) /\
    Order.tax o = zero /\
    Order.total o = zero /\
    add (Order.subtotal o) (Order.tax o) = of_decimal false 1 (-3) /\
    PyFloat.eqb (Order.total o) (add (Order.subtotal o) (Order.tax o)) = false.
Proof.
  eexists _, _, _. split; [vm_compute; reflexivity|].
  repeat split; vm_compute; reflexivity.
Qed.

(** The same with a price of two decimals: for one item at 1.1 the stored
    total is 1.16 while subtotal + tax is the next double above it. *)
Example total_not_exact_sum_two_decimals :
  exists (o : Order.t) (w' : world),
    snd (checkout small_payload empty_world) = w' /\
    orders w' = [(0%nat, OrderDoc o)] /\
    Order.total o = of_decimal false 116 (-2) /\
    Order.total o <> add (Order.subtotal o) (Order.tax o).
Proof.
  eexists _, _. split; [vm_compute; reflexivity|].
  split; [reflexivity|]. split; [vm_compute; reflexivity|].
  vm_compute. discriminate.
Qed.

(** C2, amended. For every order stored by checkout: the subtotal is the
    sum over the items of price times quantity (as a float), the tax is
    round(subtotal * 0.05, 2) and the total is round(subtotal + tax, 2);
    the order is added at the end of the stored orders, and whatever
    requests are served afterwards, the orders already stored stay as they
    are, in place. *)
Theorem C2_order_amounts :
  (forall (payload : CheckoutRequest) (w w' : world) (resp : checkout_response),
     checkout payload w = (Ok resp, w') ->
     exists (o : Order.t) (sub : number),
       orders w' = (orders w ++ [(order_id resp, OrderDoc o)])%list /\
       sum line_amount (items payload) = Ok sub /\
       to_float sub = Ok (Order.subtotal o) /\
       Order.tax o = round2 (mul (Order.subtotal o) rate) /\
       Order.total o = round2 (add (Order.subtotal o) (Order.tax o))) /\
  (forall (rs : list request) (w : world),
     exists k, orders (fold_left serve rs w) = (orders w ++ k)%list).
Proof.
  split; [|exact serve_all_orders].
  intros payload w w' resp H.
  destruct (checkout_ok payload w w' resp H)
    as (s & sub & tax & tot & o & Hdb & Ht & Hn & -> & _ & Ho).
  destruct (totals_ok _ _ _ _ Ht) as (Hsum & f & Hf & -> & ->).
  destruct (Order_new_ok _ _ _ _ _ _ _ _ Hn)
    as (fs & ft & fo & -> & Hfs & Hft & Hfo & _).
  rewrite Hf in Hfs. injection Hfs as <-.
  simpl in Hft, Hfo. injection Hft as <-. injection Hfo as <-.
  exists (Order.mk (customer_name payload) (customer_email payload) None
            (shipping_address payload) (items payload) f
            (round2 (mul f rate)) (round2 (add f (round2 (mul f rate))))), sub.
  simpl. auto.
Qed.

Lemma C2_order_amounts_witness :
  checkout example_payload empty_world =
    (Ok example_response, snd (checkout example_payload empty_world)) /\
  exists (o : Order.t) (sub : number),
    orders (snd (checkout example_payload empty_world)) =
      (orders empty_world ++ [(order_id example_response, OrderDoc o)])%list /\
    sum line_amount (items example_payload) = Ok sub /\
    to_float sub = Ok (Order.subtotal o) /\
    Order.tax o = round2 (mul (Order.subtotal o) rate) /\
    Order.total o = round2 (add (Order.subtotal o) (Order.tax o)).
Proof.
  assert (H : checkout example_payload empty_world =
              (Ok example_response, snd (checkout example_payload empty_world)))
    by (vm_compute; reflexivity).
  split; [exact H|].
  exact (proj1 C2_order_amounts example_payload empty_world _ _ H).
Defined.

(** C3. Seed is idempotent by count. If the product collection holds a
    document, seed inserts nothing (the database is as it was) and answers
    "Products already seeded". If it holds none, seed inserts the eleven
    fixed products, every one in stock, touches no other collection and
    answers inserted: 11; a second seed right after it inserts nothing and
    leaves the database, so the product count, unchanged. *)
Theorem C3_seed_idempotent :
  forall (s : database) (j : list db_op),
    (collection s "product" <> [] ->
       seed_products (mkworld (Some s) j) =
       (Ok (mkseed "ok" (Some "Products already seeded") None),
        mkworld (Some s) (j ++ [count_op "product" []]))) /\
    (collection s "product" = [] ->
       exists (s' : database) (j' : list db_op),
         seed_products (mkworld (Some s) j) =
           (Ok (mkseed "ok" None (Some 11%nat)), mkworld (Some s') j') /\
         collection s' "product" = numbered (next_id s) products /\
         length (collection s' "product") = 11%nat /\
         Forall (fun d => exists p, snd d = ProductDoc p /\ Product.in_stock p = true)
                (collection s' "product") /\
         (forall name, name <> "product" -> collection s' name = collection s name) /\
         seed_products (mkworld (Some s') j') =
           (Ok (mkseed "ok" (Some "Products already seeded") None),
            mkworld (Some s') (j' ++ [count_op "product" []]))).
Proof.
  intros s j. split; [apply seed_run_seeded|].
  intros He. destruct (seed_run_empty s j He) as (s' & Hrun & Hc & Ho).
  eexists s', _. split; [exact Hrun|].
  split; [exact Hc|]. split; [rewrite Hc; apply length_numbered|].
  split; [rewrite Hc; apply numbered_in_stock, products_in_stock|].
  split; [exact Ho|].
  apply seed_run_seeded. rewrite Hc. discriminate.
Qed.

Lemma C3_seed_idempotent_witness :
  collection (mkdb ∅ 0) "product" = [] /\
  exists (s' : database) (j' : list db_op),
    seed_products empty_world =
      (Ok (mkseed "ok" None (Some 11%nat)), mkworld (Some s') j') /\
    length (collection s' "product") = 11%nat /\
    seed_products (mkworld (Some s') j') =
      (Ok (mkseed "ok" (Some "Products already seeded") None),
       mkworld (Some s') (j' ++ [count_op "product" []])).
Proof.
  assert (He : collection (mkdb ∅ 0) "product" = []) by reflexivity.
  split; [exact He|].
  destruct (proj2 (C3_seed_idempotent (mkdb ∅ 0) []) He)
    as (s' & j' & Hrun & _ & Hlen & _ & _ & Hagain).
  exists s', j'. repeat split; assumption.
Defined.

(** C4, as stated, fails on the empty text: given the category argument ""
    on the seeded database, listing returns all eleven products, although
    no product has the category "". *)
Lemma C4_empty_category_not_filtered :
  fst (list_products (Some "") seeded_world) = Ok products /\
  List.filter (fun p => String.eqb (Product.category p) "") products = [].
Proof. split; vm_compute; reflexivity. Qed.

(** C4, amended. For every stored set of products, listing with a
    non-empty category argument returns exactly the products whose category
    is that text, compared exactly and case-sensitively, in stored order;
    listing without a category argument returns all the products. *)
Theorem C4_list_products_filter :
  forall (s : database) (j : list db_op) (c : string),
    Forall (fun d => is_product d = true) (collection s "product") ->
    c <> "" ->
    list_products (Some c) (mkworld (Some s) j) =
      (Ok (List.filter (fun p => String.eqb (Product.category p) c)
                       (stored_products s)),
       mkworld (Some s) (j ++ [find_op "product" [("category", c)]])) /\
    list_products None (mkworld (Some s) j) =
      (Ok (stored_products s), mkworld (Some s) (j ++ [find_op "product" []])).
Proof.
  intros s j c Hv Hc. split.
  - rewrite (list_run_valid (Some c) s j Hv).
    unfold truthy. apply String.eqb_neq in Hc. rewrite Hc. reflexivity.
  - apply (list_run_valid None s j Hv).
Qed.

Lemma C4_list_products_filter_witness :
  Forall (fun d => is_product d = true)
         (collection (mkdb (<["product" := numbered 0 products]> ∅) 11) "product") /\
  "spices" <> "" /\
  fst (list_products (Some "spices")
         (mkworld (Some (mkdb (<["product" := numbered 0 products]> ∅) 11)) [])) =
    Ok (List.filter (fun p => String.eqb (Product.category p) "spices") products) /\
  fst (list_products None
         (mkworld (Some (mkdb (<["product" := numbered 0 products]> ∅) 11)) [])) =
    Ok products.
Proof.
  assert (Hv : Forall (fun d => is_product d = true)
                 (collection (mkdb (<["product" := numbered 0 products]> ∅) 11)
                             "product"))
    by (vm_compute; repeat constructor).
  assert (Hc : "spices" <> "") by discriminate.
  split; [exact Hv|]. split; [exact Hc|].
  destruct (C4_list_products_filter
              (mkdb (<["product" := numbered 0 products]> ∅) 11) [] "spices" Hv Hc)
    as [H1 H2].
  rewrite H1, H2. split; reflexivity.
Defined.

(** C5. A checkout request with no items is accepted: the amounts are the
    int 0 for the subtotal and 0.0 for tax and total, and the order is
    stored with subtotal, tax and total all 0.0, the response giving the
    new identifier and the total 0.0. *)
Theorem C5_checkout_empty :
  totals [] = Ok (NInt 0, NFloat zero, NFloat zero) /\
  forall (name email address : string) (s : database) (j : list db_op),
    checkout (mkrequest name email address []) (mkworld (Some s) j) =
    let o := Order.mk name email None address [] zero zero zero in
    (Ok (mkcheckout "success" (next_id s) (NFloat zero)),
     mkworld (Some (store_order s o)) (j ++ [insert_op "order" (OrderDoc o)])).
Proof.
  split; [reflexivity|].
  intros. rewrite checkout_run. reflexivity.
Qed.

(** C6, as stated, fails: a payload that passes validation, with one item
    of quantity 2^1024, makes price * quantity raise OverflowError; no
    order is persisted and no identifier is answered. *)
Lemma C6_quantity_without_double :
  Forall (fun i => OrderItem.valid i = true) (items oversized_payload) /\
  checkout oversized_payload empty_world = (Raise OverflowError, empty_world) /\
  orders (snd (checkout oversized_payload empty_world)) = [].
Proof. split; [repeat constructor|]. split; vm_compute; reflexivity. Qed.

(** C6, amended. For every valid checkout payload whose quantities are
    below 2^63 (each then has a double, and fits an 8-byte integer of the
    database), on a configured database: checkout stores one order, at the
    end of the order collection and under the identifier it generated; the
    order holds the payload's items as given, in order, with their titles
    and prices (nothing is read from the product collection), and the
    payload's customer name, email and shipping address, no phone; the
    response carries that identifier and the computed total, which is the
    stored one; nothing else is changed. *)
Theorem C6_checkout_persists :
  forall (payload : CheckoutRequest) (s : database) (j : list db_op),
    Forall (fun i => OrderItem.valid i = true) (items payload) ->
    Forall (fun i => OrderItem.quantity i < 2 ^ 63) (items payload) ->
    exists (o : Order.t) (sub tax : number),
      totals (items payload) = Ok (sub, tax, NFloat (Order.total o)) /\
      checkout payload (mkworld (Some s) j) =
        (Ok (mkcheckout "success" (next_id s) (NFloat (Order.total o))),
         mkworld (Some (store_order s o))
                 (j ++ [insert_op "order" (OrderDoc o)])) /\
      collection (store_order s o) "order" =
        (collection s "order" ++ [(next_id s, OrderDoc o)])%list /\
      (forall name, name <> "order" ->
         collection (store_order s o) name = collection s name) /\
      Order.items o = items payload /\
      Order.customer_name o = customer_name payload /\
      Order.customer_email o = customer_email payload /\
      Order.shipping_address o = shipping_address payload /\
      Order.customer_phone o = None.
Proof.
  intros payload s j Hv Hq.
  assert (Hf : Forall fits (items payload)).
  { apply Forall_forall. intros i Hi.
    pose proof (proj1 (Forall_forall _ _) Hv i Hi) as Hvi.
    pose proof (proj1 (Forall_forall _ _) Hq i Hi) as Hqi.
    unfold OrderItem.valid in Hvi.
    apply andb_true_iff in Hvi as [Hge _]. apply Z.leb_le in Hge.
    apply fits_bounded. split; [lia|].
    eapply Z.lt_trans; [exact Hqi|]. vm_compute. reflexivity. }
  destruct (totals_fits _ Hf) as [[[sub tax] tot] Ht].
  destruct (totals_good _ _ _ _ Hv Ht) as (Hs & Hx & Ho).
  destruct (Order_new_good (customer_name payload) (customer_email payload)
              (shipping_address payload) (items payload) sub tax tot Hs Hx Ho)
    as (fs & ft & fo & _ & _ & Hfo & Hn).
  destruct (totals_ok _ _ _ _ Ht) as (_ & f & _ & _ & Htot).
  rewrite Htot in Hfo. simpl in Hfo. injection Hfo as <-. subst tot.
  exists (Order.mk (customer_name payload) (customer_email payload) None
            (shipping_address payload) (items payload) fs ft
            (round2 (add f (round2 (mul f rate))))), sub, tax.
  split; [exact Ht|].
  split; [rewrite checkout_run, Ht, Hn; reflexivity|].
  split; [rewrite collection_store_order;
          destruct (decide _); [reflexivity|congruence]|].
  split; [intros name Hne; rewrite collection_store_order;
          destruct (decide _); [congruence|reflexivity]|].
  simpl. repeat split.
Qed.

Lemma C6_checkout_persists_witness :
  Forall (fun i => OrderItem.valid i = true) (items example_payload) /\
  Forall (fun i => OrderItem.quantity i < 2 ^ 63) (items example_payload) /\
  exists o : Order.t,
    checkout example_payload empty_world =
      (Ok (mkcheckout "success" 0 (NFloat (Order.total o))),
       mkworld (Some (store_order (mkdb ∅ 0) o)) [insert_op "order" (OrderDoc o)]) /\
    Order.items o = example_items.
Proof.
  assert (Hv : Forall (fun i => OrderItem.valid i = true) (items example_payload))
    by (repeat constructor).
  assert (Hq : Forall (fun i => OrderItem.quantity i < 2 ^ 63) (items example_payload))
    by (repeat constructor).
  split; [exact Hv|]. split; [exact Hq|].
  destruct (C6_checkout_persists example_payload (mkdb ∅ 0) [] Hv Hq)
    as (o & sub & tax & _ & Hrun & _ & _ & Hi & _).
  exists o. split; [exact Hrun | exact Hi].
Defined.

(** C7. With no database configured (the handle is None), seed, product
    listing and checkout each raise HTTPException(500, "Database not
    configured"); nothing was asked of the database (the journal is as it
    was) and the world is unchanged. *)
Theorem C7_database_not_configured :
  forall (j : list db_op) (category : option string) (payload : CheckoutRequest),
    let w := mkworld None j in
    seed_products w = (not_configured, w) /\
    list_products category w = (not_configured, w) /\
    checkout payload w = (not_configured, w).
Proof. intros. repeat split. Qed.

(** C8. Constructing a Product whose price is below 0 raises a validation
    error naming the field [price] and its bound [ge=0], and gives no
    entity; so it is with price -1. *)
Theorem C8_product_price_minimum :
  (forall kw : Product.t,
     PyFloat.lt (Product.price kw) zero = true ->
     Product.new kw = Raise (ValidationError [("price", greater_than_equal 0)])) /\
  (forall (title : string) (description : option string) (category : string)
          (image_url : option string) (in_stock : bool),
     Product.new (Product.mk title description (opp (lit 1)) category image_url in_stock)
     = Raise (ValidationError [("price", greater_than_equal 0)])).
Proof.
  split.
  - intros kw H. unfold Product.new. rewrite (lt_zero_not_ge0 _ H). reflexivity.
  - intros. reflexivity.
Qed.

Lemma C8_product_price_minimum_witness :
  let kw := Product.mk "Walnuts" None (opp (lit 1)) "dryfruits" None true in
  PyFloat.lt (Product.price kw) zero = true /\
  Product.new kw = Raise (ValidationError [("price", greater_than_equal 0)]).
Proof.
  split; [reflexivity|].
  apply (proj1 C8_product_price_minimum). reflexivity.
Defined.

(** C9. Given the empty text as category, listing applies no filter: it
    does what it does with no category at all (the query sent is the empty
    one), and so returns every stored product, not those whose category is
    the empty text. *)
Theorem C9_empty_category_lists_all :
  (forall w : world, list_products (Some "") w = list_products None w) /\
  (forall (s : database) (j : list db_op),
     Forall (fun d => is_product d = true) (collection s "product") ->
     list_products (Some "") (mkworld (Some s) j) =
       (Ok (stored_products s), mkworld (Some s) (j ++ [find_op "product" []]))).
Proof.
  split; [reflexivity|].
  intros s j Hv. apply (list_run_valid (Some "") s j Hv).
Qed.

Lemma C9_empty_category_lists_all_witness :
  Forall (fun d => is_product d = true)
         (collection (mkdb (<["product" := numbered 0 products]> ∅) 11) "product") /\
  fst (list_products (Some "")
         (mkworld (Some (mkdb (<["product" := numbered 0 products]> ∅) 11)) [])) =
    Ok products.
Proof.
  assert (Hv : Forall (fun d => is_product d = true)
                 (collection (mkdb (<["product" := numbered 0 products]> ∅) 11)
                             "product"))
    by (vm_compute; repeat constructor).
  split; [exact Hv|].
  rewrite (proj2 C9_empty_category_lists_all _ [] Hv). reflexivity.
Defined.

(** C10. For every checkout payload whose items pass OrderItem validation
    (quantity >= 1, price >= 0): whenever subtotal, tax and total are
    computed they are all >= 0 and the Order constructor accepts them; so
    checkout never ends in a validation error, whatever the world. *)
Theorem C10_order_validation_unreachable :
  forall (payload : CheckoutRequest) (w : world),
    Forall (fun i => OrderItem.valid i = true) (items payload) ->
    (forall sub tax tot : number,
       totals (items payload) = Ok (sub, tax, tot) ->
       number_ge0 sub = true /\ number_ge0 tax = true /\ number_ge0 tot = true /\
       exists o, Order.new (customer_name payload) (customer_email payload)
                           (shipping_address payload) (items payload)
                           sub tax tot = Ok o) /\
    (forall errs, fst (checkout payload w) <> Raise (ValidationError errs)).
Proof.
  intros payload w Hv.
  assert (H1 : forall sub tax tot : number,
             totals (items payload) = Ok (sub, tax, tot) ->
             number_ge0 sub = true /\ number_ge0 tax = true /\
             number_ge0 tot = true /\
             exists o, Order.new (customer_name payload) (customer_email payload)
                                 (shipping_address payload) (items payload)
                                 sub tax tot = Ok o).
  { intros sub tax tot Ht.
    destruct (totals_good _ _ _ _ Hv Ht) as (Hs & Hx & Ho).
    destruct (Order_new_good (customer_name payload) (customer_email payload)
                (shipping_address payload) (items payload) sub tax tot Hs Hx Ho)
      as (fs & ft & fo & _ & _ & _ & Hn).
    repeat split; try (apply good_ge0; assumption). eauto. }
  split; [exact H1|].
  intros errs. destruct w as [[s|] j]; [|discriminate].
  rewrite checkout_run.
  destruct (totals (items payload)) as [[[sub tax] tot]|e] eqn:Ht.
  - destruct (H1 sub tax tot eq_refl) as (_ & _ & _ & o & ->). discriminate.
  - destruct (totals_raise _ _ Ht) as [-> _]. discriminate.
Qed.

Lemma C10_order_validation_unreachable_witness :
  Forall (fun i => OrderItem.valid i = true) (items example_payload) /\
  (exists o, Order.new (customer_name example_payload) (customer_email example_payload)
               (shipping_address example_payload) (items example_payload)
               (NFloat (lit 1697)) (NFloat (of_decimal false 8485 (-2)))
               (NFloat (of_decimal false 178185 (-2))) = Ok o) /\
  (forall errs, fst (checkout example_payload empty_world) <> Raise (ValidationError errs)).
Proof.
  assert (Hv : Forall (fun i => OrderItem.valid i = true) (items example_payload))
    by (repeat constructor).
  split; [exact Hv|].
  destruct (C10_order_validation_unreachable example_payload empty_world Hv)
    as [H1 H2].
  split; [|exact H2].
  assert (Ht : totals (items example_payload) =
               Ok (NFloat (lit 1697), NFloat (of_decimal false 8485 (-2)),
                   NFloat (of_decimal false 178185 (-2))))
    by (vm_compute; reflexivity).
  exact (proj2 (proj2 (proj2 (H1 _ _ _ Ht)))).
Defined.

(** * Further properties of the handlers *)

Lemma seed_run (s : database) (j : list db_op) :
  exists (resp : seed_response) (s' : database) (j' : list db_op),
    seed_products (mkworld (Some s) j) = (Ok resp, mkworld (Some s') j') /\
    collection s' "order" = collection s "order" /\
    (collection s "product" <> [] -> s' = s) /\
    (collection s "product" = [] ->
     collection s' "product" = numbered (next_id s) products).
Proof.
  destruct (collection s "product") as [|d l] eqn:Hc.
  - destruct (seed_run_empty s j Hc) as (s' & Hrun & Hc' & Ho).
    eexists _, s', _. split; [exact Hrun|].
    split; [apply Ho; discriminate|]. split; [congruence|]. intros _. exact Hc'.
  - eexists _, s, _. split; [apply seed_run_seeded; rewrite Hc; discriminate|].
    split; [reflexivity|]. split; [reflexivity|]. discriminate.
Qed.

Lemma list_run_db (category : option string) (w : world) :
  db (snd (list_products category w)) = db w.
Proof. destruct w as [[s|] j]; reflexivity. Qed.

Lemma checkout_catalogue (payload : CheckoutRequest) (w : world) :
  catalogue (snd (checkout payload w)) = catalogue w.
Proof.
  destruct w as [[s|] j]; [|reflexivity].
  rewrite checkout_run.
  destruct (totals (items payload)) as [[[sub tax] tot]|e]; [|reflexivity].
  destruct (Order.new _ _ _ _ _ _ _) as [o|e]; [|reflexivity].
  unfold catalogue. simpl db. cbv iota beta.
  rewrite collection_insert. destruct (decide _); [discriminate|reflexivity].
Qed.

(** X1. Each handler keeps to its own collection, whether it answers or
    raises: seeding and listing leave the stored orders exactly as they
    were, checkout and listing leave the product collection exactly as it
    was, and listing changes nothing in the database at all. *)
Theorem handlers_keep_to_their_collection :
  forall (w : world),
    orders (snd (seed_products w)) = orders w /\
    (forall category,
       db (snd (list_products category w)) = db w) /\
    (forall payload,
       catalogue (snd (checkout payload w)) = catalogue w).
Proof.
  intros w. split; [|split].
  - destruct w as [[s|] j]; [|reflexivity].
    destruct (seed_run s j) as (resp & s' & j' & -> & Ho & _).
    exact Ho.
  - intros category. apply list_run_db.
  - intros payload. apply checkout_catalogue.
Qed.

(** X2. Checkout fails before it reaches the gateway: when the amounts
    cannot be computed (then it is OverflowError, for a quantity with no
    double), or when the Order constructor refuses them, checkout raises
    that exception with nothing asked of the database and nothing written:
    the world, journal included, is as it was. *)
Theorem checkout_fails_before_gateway :
  forall (payload : CheckoutRequest) (s : database) (j : list db_op) (e : exn),
    totals (items payload) = Raise e \/
    (exists sub tax tot,
       totals (items payload) = Ok (sub, tax, tot) /\
       Order.new (customer_name payload) (customer_email payload)
                 (shipping_address payload) (items payload) sub tax tot = Raise e) ->
    checkout payload (mkworld (Some s) j) = (Raise e, mkworld (Some s) j) /\
    (totals (items payload) = Raise e ->
     e = OverflowError /\ Exists (fun i => ~ fits i) (items payload)).
Proof.
  intros payload s j e H. split.
  - rewrite checkout_run.
    destruct H as [->|(sub & tax & tot & -> & ->)]; reflexivity.
  - apply totals_raise.
Qed.

Lemma checkout_fails_before_gateway_witness :
  (totals (items oversized_payload) = Raise OverflowError \/
   exists sub tax tot,
     totals (items oversized_payload) = Ok (sub, tax, tot) /\
     Order.new (customer_name oversized_payload) (customer_email oversized_payload)
               (shipping_address oversized_payload) (items oversized_payload)
               sub tax tot = Raise OverflowError) /\
  checkout oversized_payload empty_world = (Raise OverflowError, empty_world).
Proof.
  assert (H : totals (items oversized_payload) = Raise OverflowError \/
              exists sub tax tot,
                totals (items oversized_payload) = Ok (sub, tax, tot) /\
                Order.new (customer_name oversized_payload)
                          (customer_email oversized_payload)
                          (shipping_address oversized_payload)
                          (items oversized_payload) sub tax tot = Raise OverflowError)
    by (left; vm_compute; reflexivity).
  split; [exact H|].
  exact (proj1 (checkout_fails_before_gateway oversized_payload (mkdb ∅ 0) []
                  OverflowError H)).
Defined.

Lemma serve_catalogue (w : world) (r : request) :
  catalogue (serve w r) = catalogue w \/
  (r = POST_seed /\ catalogue w = [] /\
   exists i, catalogue (serve w r) = numbered i products).
Proof.
  destruct r as [|category|payload]; unfold serve.
  - destruct w as [[s|] j]; [|left; reflexivity].
    destruct (seed_run s j) as (resp & s' & j' & -> & _ & Hfull & Hempty).
    unfold catalogue. simpl.
    destruct (collection s "product") as [|d l] eqn:Hc.
    + right. repeat split. exists (next_id s). apply Hempty. reflexivity.
    + left. rewrite Hfull by discriminate. exact Hc.
  - left. unfold catalogue. rewrite list_run_db. reflexivity.
  - left. apply checkout_catalogue.
Qed.

(** X3. However often seed is called, and whatever requests come between,
    a catalogue that starts empty is afterwards either still empty or
    exactly the eleven seeded products, once each and in their order: it
    never holds more than eleven records. *)
Theorem catalogue_empty_or_seeded :
  forall (rs : list request) (w : world),
    catalogue w = [] \/ (exists i, catalogue w = numbered i products) ->
    let w' := fold_left serve rs w in
    (catalogue w' = [] \/ exists i, catalogue w' = numbered i products) /\
    (length (catalogue w') <= 11)%nat.
Proof.
  intros rs w H.
  assert (G : catalogue (fold_left serve rs w) = [] \/
              exists i, catalogue (fold_left serve rs w) = numbered i products).
  { revert w H. induction rs as [|r rs IH]; intros w H; simpl; [exact H|].
    apply IH.
    destruct (serve_catalogue w r) as [->|(_ & _ & Hs)]; [exact H|].
    right. exact Hs. }
  split; [exact G|].
  destruct G as [->|[i ->]]; [simpl; lia|].
  rewrite length_numbered. reflexivity.
Qed.

Lemma catalogue_empty_or_seeded_witness :
  (catalogue empty_world = [] \/
   exists i, catalogue empty_world = numbered i products) /\
  length (catalogue (fold_left serve
                       [POST_seed; POST_checkout example_payload; POST_seed;
                        GET_products None; POST_seed] empty_world)) = 11%nat /\
  (length (catalogue (fold_left serve
                        [POST_seed; POST_checkout example_payload; POST_seed;
                         GET_products None; POST_seed] empty_world)) <= 11)%nat.
Proof.
  assert (H : catalogue empty_world = [] \/
              exists i, catalogue empty_world = numbered i products)
    by (left; reflexivity).
  split; [exact H|]. split; [vm_compute; reflexivity|].
  exact (proj2 (catalogue_empty_or_seeded
                  [POST_seed; POST_checkout example_payload; POST_seed;
                   GET_products None; POST_seed] empty_world H)).
Defined.

Lemma serve_configured (w : world) (r : request) :
  is_Some (db w) -> is_Some (db (serve w r)).
Proof.
  destruct w as [[s|] j]; intros [x Hx]; [|discriminate].
  destruct r as [|category|payload]; unfold serve.
  - destruct (seed_run s j) as (resp & s' & j' & -> & _). simpl. eauto.
  - rewrite list_run_db. simpl. eauto.
  - rewrite checkout_run.
    destruct (totals (items payload)) as [[[sub tax] tot]|e]; [|simpl; eauto].
    destruct (Order.new _ _ _ _ _ _ _) as [o|e]; simpl; eauto.
Qed.

Lemma served_configured (rs : list request) :
  forall w, is_Some (db w) -> is_Some (db (fold_left serve rs w)).
Proof.
  induction rs as [|r rs IH]; intros w H; simpl; [exact H|].
  apply IH, serve_configured, H.
Qed.

(** X4. Listing never fails on a database filled through the handlers:
    starting from a configured database whose product records are all
    products (the empty one, say), after any requests whatever, listing
    with any category argument answers with a list. *)
Theorem listing_answers_after_requests :
  forall (s : database) (j : list db_op) (rs : list request)
         (category : option string),
    Forall (fun d => is_product d = true) (collection s "product") ->
    exists ps : list Product.t,
      fst (list_products category (fold_left serve rs (mkworld (Some s) j))) = Ok ps.
Proof.
  intros s j rs category Hv.
  pose proof (reachable_product_records rs (mkworld (Some s) j) Hv) as Hr.
  pose proof (served_configured rs (mkworld (Some s) j) ltac:(simpl; eauto)) as Hc.
  destruct (fold_left serve rs (mkworld (Some s) j)) as [[s'|] j'];
    [|destruct Hc; discriminate].
  unfold product_records_valid in Hr. simpl in Hr.
  rewrite (list_run_valid category s' j' Hr).
  destruct category as [c|]; [destruct (truthy (Some c))|]; simpl; eauto.
Qed.

Lemma listing_answers_after_requests_witness :
  Forall (fun d => is_product d = true) (collection (mkdb ∅ 0) "product") /\
  exists ps : list Product.t,
    fst (list_products (Some "spices")
           (fold_left serve [POST_seed; POST_checkout example_payload]
                      (mkworld (Some (mkdb ∅ 0)) []))) = Ok ps.
Proof.
  assert (Hv : Forall (fun d => is_product d = true)
                      (collection (mkdb ∅ 0) "product")) by constructor.
  split; [exact Hv|].
  exact (listing_answers_after_requests (mkdb ∅ 0) []
           [POST_seed; POST_checkout example_payload] (Some "spices") Hv).
Defined.

Lemma products_in_numbered (ps : list Product.t) :
  forall i, products_in (numbered i ps) = ps.
Proof.
  induction ps as [|p ps IH]; intros i; simpl; [|rewrite IH]; reflexivity.
Qed.

(** X5. Seeding and then listing is a round trip: on a configured database
    with no product, after seed a listing without category returns the
    eleven products of the source, field for field and in their order, and
    a listing with a non-empty category returns those of them in that
    category. *)
Theorem seed_then_list :
  forall (s : database) (j : list db_op) (c : string),
    collection s "product" = [] ->
    let w := snd (seed_products (mkworld (Some s) j)) in
    fst (list_products None w) = Ok products /\
    (c <> "" ->
     fst (list_products (Some c) w) =
       Ok (List.filter (fun p => String.eqb (Product.category p) c) products)).
Proof.
  intros s j c He.
  destruct (seed_run_empty s j He) as (s' & Hrun & Hc & _).
  rewrite Hrun. simpl snd.
  assert (Hv : Forall (fun d => is_product d = true) (collection s' "product"))
    by (rewrite Hc; apply numbered_is_product, products_valid).
  assert (Hs : stored_products s' = products)
    by (unfold stored_products; rewrite Hc; apply products_in_numbered).
  split.
  - rewrite (list_run_valid None s' _ Hv). simpl. rewrite Hs. reflexivity.
  - intros Hne. rewrite (list_run_valid (Some c) s' _ Hv).
    unfold truthy. apply String.eqb_neq in Hne. rewrite Hne. simpl.
    rewrite Hs. reflexivity.
Qed.

Lemma seed_then_list_witness :
  collection (mkdb ∅ 0) "product" = [] /\
  "gifting" <> "" /\
  fst (list_products None (snd (seed_products empty_world))) = Ok products /\
  fst (list_products (Some "gifting") (snd (seed_products empty_world))) =
    Ok (List.filter (fun p => String.eqb (Product.category p) "gifting") products).
Proof.
  assert (He : collection (mkdb ∅ 0) "product" = []) by reflexivity.
  assert (Hne : "gifting" <> "") by discriminate.
  split; [exact He|]. split; [exact Hne|].
  destruct (seed_then_list (mkdb ∅ 0) [] "gifting" He) as [H1 H2].
  split; [exact H1 | exact (H2 Hne)].
Defined.

Lemma append_products_bad (docs : list (nat * document)) :
  Exists (fun d => is_product d = false) docs ->
  forall acc, exists errs, append_products docs acc = Raise (ValidationError errs).
Proof.
  induction docs as [|[i d] docs IH]; intros H acc; [inversion H|].
  simpl. destruct d as [p|o]; simpl; [|eauto].
  unfold Product.new.
  destruct (ge0 (Product.price p)) eqn:Hp; simpl; [|eauto].
  apply IH. inversion H as [? ? Hd|]; [|assumption].
  unfold is_product in Hd. simpl in Hd. congruence.
Qed.

(** X6. Listing builds a Product from every record it fetched, and from
    those only: if each fetched record is a product with price >= 0 it
    answers with them, in stored order; if one is not, it raises a
    validation error and answers nothing. A record outside the requested
    category is not looked at, so it cannot make the listing fail. *)
Theorem listing_validates_fetched_records :
  forall (s : database) (j : list db_op) (category : option string),
    let docs := List.filter (matches (category_query category))
                            (collection s "product") in
    (Forall (fun d => is_product d = true) docs ->
     fst (list_products category (mkworld (Some s) j)) = Ok (products_in docs)) /\
    (Exists (fun d => is_product d = false) docs ->
     exists errs,
       fst (list_products category (mkworld (Some s) j)) =
         Raise (ValidationError errs)).
Proof.
  intros s j category docs. rewrite list_run. simpl fst.
  fold (category_query category). fold docs. split.
  - intros H. rewrite (append_products_ok docs H). reflexivity.
  - intros H. apply append_products_bad. exact H.
Qed.

Lemma listing_validates_fetched_records_witness :
  Forall (fun d => is_product d = true)
         (List.filter (matches (category_query (Some "spices"))) (catalogue flawed_world)) /\
  Exists (fun d => is_product d = false)
         (List.filter (matches (category_query None)) (catalogue flawed_world)) /\
  fst (list_products (Some "spices") flawed_world) =
    Ok [Product.mk "Cloves" None (lit 99) "spices" None true] /\
  exists errs, fst (list_products None flawed_world) = Raise (ValidationError errs).
Proof.
  assert (H1 : Forall (fun d => is_product d = true)
                 (List.filter (matches (category_query (Some "spices")))
                              (catalogue flawed_world)))
    by (vm_compute; repeat constructor).
  assert (H2 : Exists (fun d => is_product d = false)
                 (List.filter (matches (category_query None))
                              (catalogue flawed_world)))
    by (vm_compute; constructor; reflexivity).
  split; [exact H1|]. split; [exact H2|]. split.
  - exact (proj1 (listing_validates_fetched_records _ [] (Some "spices")) H1).
  - exact (proj2 (listing_validates_fetched_records _ [] None) H2).
Defined.

Lemma serve_order_count (w : world) (r : request) :
  length (orders (serve w r)) =
  (length (orders w) + if answered w r then 1 else 0)%nat.
Proof.
  destruct r as [|category|payload]; unfold serve, answered.
  - destruct w as [[s|] j]; [|simpl; lia].
    destruct (seed_run s j) as (resp & s' & j' & -> & Ho & _).
    unfold orders. simpl. rewrite Ho. lia.
  - unfold orders. rewrite list_run_db. lia.
  - destruct (checkout payload w) as [[resp|e] w'] eqn:H; simpl fst; simpl snd.
    + destruct (checkout_ok payload w w' resp H)
        as (s & sub & tax & tot & o & _ & _ & _ & _ & _ & ->).
      rewrite length_app. reflexivity.
    + destruct w as [[s|] j]; [|injection H as _ <-; simpl; lia].
      rewrite checkout_run in H.
      destruct (totals (items payload)) as [[[sub tax] tot]|e'].
      * destruct (Order.new _ _ _ _ _ _ _) as [o|e'']; [discriminate|].
        injection H as _ <-. simpl. lia.
      * injection H as _ <-. simpl. lia.
Qed.

(** X7. Orders are counted by the checkouts that answered: after any list
    of requests served in turn, the number of stored orders has grown by
    exactly the number of checkout requests that got an answer; a checkout
    that raised, a seed or a listing adds none. *)
Theorem orders_count_answered_checkouts :
  forall (rs : list request) (w : world),
    length (orders (fold_left serve rs w)) =
    (length (orders w) + count_answered w rs)%nat.
Proof.
  induction rs as [|r rs IH]; intros w; simpl; [lia|].
  rewrite IH, serve_order_count. lia.
Qed.

(** X8. What checkout stores can be read back: the stored order, given
    again to the Order constructor field by field, is accepted and gives
    the same order, items included. *)
Theorem stored_order_reads_back :
  forall (payload : CheckoutRequest) (w w' : world) (resp : checkout_response),
    checkout payload w = (Ok resp, w') ->
    exists (o : Order.t),
      orders w' = (orders w ++ [(order_id resp, OrderDoc o)])%list /\
      Order.new (Order.customer_name o) (Order.customer_email o)
                (Order.shipping_address o) (Order.items o)
                (NFloat (Order.subtotal o)) (NFloat (Order.tax o))
                (NFloat (Order.total o)) = Ok o.
Proof.
  intros payload w w' resp H.
  destruct (checkout_ok payload w w' resp H)
    as (s & sub & tax & tot & o & _ & _ & Hn & -> & _ & Ho).
  exists o. split; [exact Ho|].
  destruct (Order_new_ok _ _ _ _ _ _ _ _ Hn)
    as (fs & ft & fo & -> & _ & _ & _ & Hs & Ht & Hf).
  unfold Order.new. simpl. rewrite Hs, Ht, Hf. reflexivity.
Qed.

Lemma stored_order_reads_back_witness :
  checkout example_payload empty_world =
    (Ok example_response, snd (checkout example_payload empty_world)) /\
  exists (o : Order.t),
    orders (snd (checkout example_payload empty_world)) =
      (orders empty_world ++ [(order_id example_response, OrderDoc o)])%list /\
    Order.new (Order.customer_name o) (Order.customer_email o)
              (Order.shipping_address o) (Order.items o)
              (NFloat (Order.subtotal o)) (NFloat (Order.tax o))
              (NFloat (Order.total o)) = Ok o.
Proof.
  assert (H : checkout example_payload empty_world =
              (Ok example_response, snd (checkout example_payload empty_world)))
    by (vm_compute; reflexivity).
  split; [exact H|].
  exact (stored_order_reads_back example_payload empty_world _ _ H).
Defined.

(** * Further properties of the amounts *)

Lemma add_comm (x y : float) : add x y = add y x.
Proof.
  destruct x as [[]|[]| |sx mx ex], y as [[]|[]| |sy my ey]; try reflexivity.
  unfold add, SFadd.
  rewrite (Z.min_comm ey ex), (Z.add_comm (cond_Zopp sy _)). reflexivity.
Qed.

(** Adding two amounts to the empty sum, in either order. *)
Lemma add_from_zero_comm (x y : float) :
  add (add zero x) y = add (add zero y) x.
Proof.
  destruct x as [[]|[]| |sx mx ex], y as [[]|[]| |sy my ey]; try reflexivity.
  exact (add_comm (S754_finite sx mx ex) (S754_finite sy my ey)).
Qed.

Lemma sum_two (a b : OrderItem.t) :
  sum line_amount [a; b] =
  match of_int (OrderItem.quantity a), of_int (OrderItem.quantity b) with
  | Some qa, Some qb =>
      Ok (NFloat (add (add zero (mul (OrderItem.price a) qa))
                      (mul (OrderItem.price b) qb)))
  | _, _ => Raise OverflowError
  end.
Proof.
  unfold sum. simpl. rewrite !line_amount_eq.
  destruct (of_int (OrderItem.quantity a)) as [qa|]; simpl;
    destruct (of_int (OrderItem.quantity b)) as [qb|]; reflexivity.
Qed.

(** X9. The amounts of an order of two items do not depend on which item
    comes first: subtotal, tax and total are the same, and so is the
    exception when a quantity has no double. *)
Theorem two_items_commute :
  forall a b : OrderItem.t, totals [a; b] = totals [b; a].
Proof.
  intros a b. unfold totals. rewrite (sum_two a b), (sum_two b a).
  destruct (of_int (OrderItem.quantity a)) as [qa|],
           (of_int (OrderItem.quantity b)) as [qb|]; try reflexivity.
  rewrite add_from_zero_comm. reflexivity.
Qed.



Lemma sum_from_free (items : list OrderItem.t) :
  Forall (fun i => is_zero (OrderItem.price i) = true /\ fits i) items ->
  sum_from (NFloat zero) line_amount items = Ok (NFloat zero).
Proof.
  induction 1 as [|i rest [Hz [q Hq]] _ IH]; simpl; [reflexivity|].
  rewrite line_amount_eq, Hq. simpl.
  destruct (OrderItem.price i) as [sp| | |]; try discriminate.
  assert (Hq' : exists t, mul (S754_zero sp) q = S754_zero t).
  { unfold of_int in Hq.
    destruct (binary_normalize prec emax (OrderItem.quantity i) 0 false)
      as [t|t| |t m e] eqn:Hb; try discriminate; injection Hq as <-.
    - simpl. eauto.
    - exfalso. unfold binary_normalize in Hb.
      destruct (OrderItem.quantity i) as [|p|p]; try discriminate.
      + pose proof (binary_round_sign false p 0) as Hs. rewrite Hb in Hs.
        discriminate.
      + pose proof (binary_round_sign true p 0) as Hs. rewrite Hb in Hs.
        discriminate.
    - simpl. eauto. }
  destruct Hq' as [t ->]. destruct t; exact IH.
Qed.

Lemma sum_from_int0_cons (i : OrderItem.t) (rest : list OrderItem.t) :
  sum_from (NInt 0) line_amount (i :: rest) =
  sum_from (NFloat zero) line_amount (i :: rest).
Proof.
  simpl. rewrite line_amount_eq.
  destruct (of_int (OrderItem.quantity i)); reflexivity.
Qed.

(** X11. Free items cost nothing: if every price is a zero (and every
    quantity has a double), tax and total are 0.0 and the subtotal is zero,
    the int 0 for no item and 0.0 otherwise, whatever the quantities and the
    number of items. *)
Theorem free_items_total_zero :
  forall items : list OrderItem.t,
    Forall (fun i => is_zero (OrderItem.price i) = true /\ fits i) items ->
    totals items =
      Ok (match items with [] => NInt 0 | _ => NFloat zero end,
          NFloat zero, NFloat zero).
Proof.
  intros items H. destruct H as [|i rest Hi Hrest]; [reflexivity|].
  unfold totals, sum.
  rewrite sum_from_int0_cons, (sum_from_free (i :: rest)) by (constructor; assumption).
  reflexivity.
Qed.

Lemma free_items_total_zero_witness :
  let items := [OrderItem.mk "leaflet" "Recipe leaflet" 3 zero;
                OrderItem.mk "sample" "Sample" 1 (opp zero)] in
  Forall (fun i => is_zero (OrderItem.price i) = true /\ fits i) items /\
  totals items = Ok (NFloat zero, NFloat zero, NFloat zero).
Proof.
  intros items.
  assert (H : Forall (fun i => is_zero (OrderItem.price i) = true /\ fits i) items)
    by (repeat constructor; vm_compute; eauto).
  split; [exact H|].
  exact (free_items_total_zero items H).
Defined.

Lemma round2_hundredths (x : float) : nonneg x = true -> hundredths (round2 x).
Proof.
  intros Hx. destruct x as [sx|[]| |[] m e]; try discriminate.
  - right. left. reflexivity.
  - left. reflexivity.
  - unfold round2.
    destruct (scaled_hundredths m e) as [|p|p] eqn:Hn.
    + right. left. reflexivity.
    + right. right. exists p. reflexivity.
    + right. left. reflexivity.
Qed.

(** X12. For validated items, the tax and the total that checkout computes
    are whole hundredths: each is +inf, zero, or the double written n/100
    for a positive integer n. (The subtotal is stored unrounded.) *)
Theorem tax_and_total_are_hundredths :
  forall (items : list OrderItem.t) (sub tax tot : number),
    Forall (fun i => OrderItem.valid i = true) items ->
    totals items = Ok (sub, tax, tot) ->
    exists t x : float,
      tax = NFloat t /\ tot = NFloat x /\ hundredths t /\ hundredths x.
Proof.
  intros items sub tax tot Hv Ht.
  destruct (totals_good _ _ _ _ Hv Ht) as (Hs & _ & _).
  destruct (totals_ok _ _ _ _ Ht) as (_ & s & Hsf & -> & ->).
  destruct (to_float_good sub Hs) as (s' & Hs' & Hn).
  rewrite Hsf in Hs'. injection Hs' as <-.
  assert (Htax : nonneg (round2 (mul s rate)) = true)
    by (apply round2_nonneg, mul_nonneg_posfin; [assumption | exact posfin_rate]).
  eexists _, _. split; [reflexivity|]. split; [reflexivity|]. split.
  - apply round2_hundredths, mul_nonneg_posfin; [assumption | exact posfin_rate].
  - apply round2_hundredths, add_nonneg; assumption.
Qed.

Lemma tax_and_total_are_hundredths_witness :
  Forall (fun i => OrderItem.valid i = true) example_items /\
  totals example_items =
    Ok (NFloat (lit 1697), NFloat (of_decimal false 8485 (-2)),
        NFloat (of_decimal false 178185 (-2))) /\
  exists t x : float,
    NFloat (of_decimal false 8485 (-2)) = NFloat t /\
    NFloat (of_decimal false 178185 (-2)) = NFloat x /\
    hundredths t /\ hundredths x.
Proof.
  assert (Hv : Forall (fun i => OrderItem.valid i = true) example_items)
    by (repeat constructor).
  assert (Ht : totals example_items =
               Ok (NFloat (lit 1697), NFloat (of_decimal false 8485 (-2)),
                   NFloat (of_decimal false 178185 (-2))))
    by (vm_compute; reflexivity).
  split; [exact Hv|]. split; [exact Ht|].
  exact (tax_and_total_are_hundredths example_items _ _ _ Hv Ht).
Defined.

(** * Further properties of the schemas *)

(** X13. OrderItem accepts exactly the items with quantity >= 1 and
    price >= 0, and returns them as given. It refuses the others with a
    validation error that lists every failing field in declaration order:
    quantity with its bound 1 (so quantity 0 is refused), then price with
    its bound 0. *)
Theorem OrderItem_accepts_and_refuses :
  forall kw : OrderItem.t,
    (forall r, OrderItem.new kw = Ok r ->
       r = kw /\ 1 <= OrderItem.quantity kw /\ ge0 (OrderItem.price kw) = true) /\
    (1 <= OrderItem.quantity kw -> ge0 (OrderItem.price kw) = true ->
       OrderItem.new kw = Ok kw) /\
    (OrderItem.quantity kw < 1 ->
       exists rest,
         OrderItem.new kw =
           Raise (ValidationError (("quantity", greater_than_equal 1) :: rest)) /\
         rest = if ge0 (OrderItem.price kw) then []
                else [("price", greater_than_equal 0)]) /\
    (1 <= OrderItem.quantity kw -> ge0 (OrderItem.price kw) = false ->
       OrderItem.new kw = Raise (ValidationError [("price", greater_than_equal 0)])).
Proof.
  intros kw. unfold OrderItem.new, OrderItem.errors.
  destruct (Z.leb_spec 1 (OrderItem.quantity kw)) as [Hq|Hq];
    destruct (ge0 (OrderItem.price kw)) eqn:Hp; simpl;
    repeat split; intros; try discriminate; try lia; eauto.
  - congruence.
Qed.

Lemma OrderItem_accepts_and_refuses_witness :
  let kw := OrderItem.mk "almonds" "Premium Almonds" 0 (opp (lit 699)) in
  OrderItem.quantity kw < 1 /\
  OrderItem.new kw =
    Raise (ValidationError [("quantity", greater_than_equal 1);
                            ("price", greater_than_equal 0)]).
Proof.
  intros kw.
  assert (Hq : OrderItem.quantity kw < 1) by (simpl; lia).
  split; [exact Hq|].
  destruct (proj1 (proj2 (proj2 (OrderItem_accepts_and_refuses kw))) Hq)
    as (rest & -> & ->).
  reflexivity.
Defined.

(** X14. Order checks each amount alone: given float amounts, it accepts
    exactly when subtotal, tax and total are each >= 0, whatever the items
    are and whether or not total is subtotal + tax; it then keeps every
    field as given, with no phone. Otherwise it raises a validation error,
    which names amounts only. *)
Theorem Order_checks_each_amount_alone :
  forall (n e a : string) (items : list OrderItem.t) (s x t : float),
    (ge0 s = true /\ ge0 x = true /\ ge0 t = true ->
     Order.new n e a items (NFloat s) (NFloat x) (NFloat t) =
       Ok (Order.mk n e None a items s x t)) /\
    (forall o, Order.new n e a items (NFloat s) (NFloat x) (NFloat t) = Ok o ->
       ge0 s = true /\ ge0 x = true /\ ge0 t = true) /\
    (forall ex, Order.new n e a items (NFloat s) (NFloat x) (NFloat t) = Raise ex ->
       exists errs,
         ex = ValidationError errs /\
         Forall (fun err => In err [("subtotal", greater_than_equal 0);
                                    ("tax", greater_than_equal 0);
                                    ("total", greater_than_equal 0)]) errs).
Proof.
  intros n e a items s x t. unfold Order.new, Order.float_field.
  destruct (ge0 s), (ge0 x), (ge0 t); simpl;
    (split;
     [ intros (H1 & H2 & H3); first [reflexivity | discriminate]
     | split;
       [ intros o Ho; first [discriminate Ho | repeat split; reflexivity]
       | intros ex Hex;
         first [ discriminate Hex
               | injection Hex as <-; eexists; split; [reflexivity|];
                 repeat (constructor; [simpl; auto 10|]);
                 constructor ] ] ]).
Qed.

Lemma Order_checks_each_amount_alone_witness :
  ge0 (lit 10) = true /\ ge0 (lit 1) = true /\ ge0 (lit 5) = true /\
  Order.new "Asha" "asha@example.com" "12 Market Road" example_items
            (NFloat (lit 10)) (NFloat (lit 1)) (NFloat (lit 5)) =
    Ok (Order.mk "Asha" "asha@example.com" None "12 Market Road" example_items
                 (lit 10) (lit 1) (lit 5)).
Proof.
  assert (H : ge0 (lit 10) = true /\ ge0 (lit 1) = true /\ ge0 (lit 5) = true)
    by (repeat split).
  split; [exact (proj1 H)|]. split; [exact (proj1 (proj2 H))|].
  split; [exact (proj2 (proj2 H))|].
  exact (proj1 (Order_checks_each_amount_alone "Asha" "asha@example.com"
                  "12 Market Road" example_items (lit 10) (lit 1) (lit 5)) H).
Defined.

(** X15. The bound ge=0 on a float price: Product accepts exactly the
    prices that are a zero of either sign, a positive number or +inf, and
    returns its arguments unchanged; it refuses the negative numbers, -inf
    and also NaN, each time naming price and the bound 0. *)
Theorem Product_price_bound :
  forall kw : Product.t,
    (forall r, Product.new kw = Ok r -> r = kw) /\
    (Product.new kw = Ok kw <-> nonneg (Product.price kw) = true) /\
    (nonneg (Product.price kw) = false ->
     Product.new kw = Raise (ValidationError [("price", greater_than_equal 0)])) /\
    nonneg (opp zero) = true /\ nonneg infinity = true /\
    nonneg nan = false /\ nonneg (opp infinity) = false.
Proof.
  intros kw. unfold Product.new. rewrite ge0_nonneg.
  destruct (nonneg (Product.price kw)); repeat split;
    intros; try discriminate; try congruence.
Qed.

Lemma Product_price_bound_witness :
  let kw := Product.mk "Walnuts" None nan "dryfruits" None true in
  nonneg (Product.price kw) = false /\
  Product.new kw = Raise (ValidationError [("price", greater_than_equal 0)]).
Proof.
  intros kw.
  assert (H : nonneg (Product.price kw) = false) by reflexivity.
  split; [exact H|].
  exact (proj1 (proj2 (proj2 (Product_price_bound kw))) H).
Defined.

(** * Properties of the connectivity probe *)

(** X16. The probe is bounded: whatever the handle does, the response
    lists at most ten collections, which are the first the database named,
    in its order (all of them when there are at most ten); and its database
    text has at most 75 characters, an error message being cut to its
    first fifty. *)
Theorem test_database_bounded :
  forall (db : option Diagnostics.connection) (DATABASE_URL : option Diagnostics.text),
    let r := Diagnostics.test_database db DATABASE_URL in
    (length (Diagnostics.collections r) <= 10)%nat /\
    (length (Diagnostics.database r) <= 75)%nat /\
    (forall d names,
       db = Some d ->
       Diagnostics.list_collection_names d = Diagnostics.names_listed names ->
       Diagnostics.collections r = firstn 10 names /\
       ((length names <= 10)%nat -> Diagnostics.collections r = names)) /\
    (forall d message,
       db = Some d ->
       Diagnostics.list_collection_names d = Diagnostics.listing_raised message ->
       Diagnostics.collections r = [] /\
       Diagnostics.database r =
         (Diagnostics.warning_sign ++
          Diagnostics.ascii_text "  Connected but Error: " ++
          firstn 50 message)%list).
Proof.
  intros db url r. unfold r, Diagnostics.test_database.
  destruct db as [d|].
  - destruct (Diagnostics.list_collection_names d) as [names|message] eqn:Hl;
      cbn [Diagnostics.collections Diagnostics.database].
    + split; [apply length_firstn_le_n || (rewrite length_firstn; lia)|].
      split; [vm_compute; lia|]. split.
      * intros d' names' [= <-] H. rewrite Hl in H. injection H as <-.
        split; [reflexivity|]. intros Hn. apply firstn_all2. exact Hn.
      * intros d' message' [= <-] H. rewrite Hl in H. discriminate H.
    + split; [simpl; lia|]. split.
      * rewrite !length_app, length_firstn.
        change (length Diagnostics.warning_sign) with 2%nat.
        change (length (Diagnostics.ascii_text "  Connected but Error: "))
          with 23%nat.
        lia.
      * split.
        -- intros d' names' [= <-] H. rewrite Hl in H. discriminate H.
        -- intros d' message' [= <-] H. rewrite Hl in H. injection H as <-.
           split; reflexivity.
  - cbn [Diagnostics.collections Diagnostics.database].
    split; [simpl; lia|]. split; [vm_compute; lia|].
    split; intros; discriminate.
Qed.

(** X17. What the probe reports follows the handle alone: the status is
    "Connected" exactly when there is a handle, also when listing the
    collections raised; the database text is "Connected & Working" exactly
    when the listing returned; and DATABASE_URL is reported as set exactly
    when there is a handle and the variable holds a non-empty text, an
    empty value counting as not set. *)
Theorem test_database_status :
  forall (db : option Diagnostics.connection) (DATABASE_URL : option Diagnostics.text),
    let r := Diagnostics.test_database db DATABASE_URL in
    (Diagnostics.connection_status r = Diagnostics.ascii_text "Connected" <->
     db <> None) /\
    (Diagnostics.database r =
       (Diagnostics.check_mark ++ Diagnostics.ascii_text " Connected & Working")%list <->
     exists d names,
       db = Some d /\
       Diagnostics.list_collection_names d = Diagnostics.names_listed names) /\
    (Diagnostics.database_url r =
       Some (Diagnostics.check_mark ++ Diagnostics.ascii_text " Set")%list <->
     db <> None /\ exists c rest, DATABASE_URL = Some (c :: rest)) /\
    (Diagnostics.database_url r = None <-> db = None).
Proof.
  intros db url r. unfold r, Diagnostics.test_database.
  destruct db as [d|].
  - destruct (Diagnostics.list_collection_names d) as [names|message] eqn:Hl;
      cbn [Diagnostics.connection_status Diagnostics.database
           Diagnostics.database_url].
    + split; [split; [discriminate | reflexivity]|].
      split; [split; [eauto | reflexivity]|].
      split; [|split; discriminate].
      destruct url as [[|c rest]|]; split.
      * vm_compute. discriminate.
      * intros (_ & c & rest & H). discriminate H.
      * intros _. split; [discriminate | eauto].
      * reflexivity.
      * vm_compute. discriminate.
      * intros (_ & c & rest & H). discriminate H.
    + split; [split; [discriminate | reflexivity]|].
      split.
      * split; [vm_compute; discriminate|].
        intros (d' & names & [= <-] & H). rewrite Hl in H. discriminate H.
      * split; [|split; discriminate].
        destruct url as [[|c rest]|]; split.
        -- vm_compute. discriminate.
        -- intros (_ & c & rest & H). discriminate H.
        -- intros _. split; [discriminate | eauto].
        -- reflexivity.
        -- vm_compute. discriminate.
        -- intros (_ & c & rest & H). discriminate H.
  - cbn [Diagnostics.connection_status Diagnostics.database
         Diagnostics.database_url].
    split; [split; [vm_compute; discriminate | congruence]|].
    split; [split; [vm_compute; discriminate | intros (d & names & H & _); discriminate H]|].
    split; [split; [discriminate | intros [H _]; congruence]|].
    split; reflexivity.
Qed.

(** * What checkout depends on *)

(** X18. Checkout reads nothing from the database: on any two configured
    databases, whatever their product collections hold, the same payload
    raises the same exception or raises on neither, and when it is answered
    the total is the same and the very same order is appended to each (the
    identifier apart). Prices are never looked up. *)
Theorem checkout_ignores_database_content :
  forall (payload : CheckoutRequest) (s1 s2 : database) (j1 j2 : list db_op),
    (forall e, fst (checkout payload (mkworld (Some s1) j1)) = Raise e <->
               fst (checkout payload (mkworld (Some s2) j2)) = Raise e) /\
    (forall r1 r2 w1 w2,
       checkout payload (mkworld (Some s1) j1) = (Ok r1, w1) ->
       checkout payload (mkworld (Some s2) j2) = (Ok r2, w2) ->
       total r1 = total r2 /\
       exists o : Order.t,
         orders w1 = (collection s1 "order" ++ [(order_id r1, OrderDoc o)])%list /\
         orders w2 = (collection s2 "order" ++ [(order_id r2, OrderDoc o)])%list).
Proof.
  intros payload s1 s2 j1 j2. rewrite !checkout_run.
  destruct (totals (items payload)) as [[[sub tax] tot]|e0];
    [destruct (Order.new _ _ _ _ _ _ _) as [o|e0]|]; simpl.
  - split; [intros e; split; discriminate|].
    intros r1 r2 w1 w2 [= <- <-] [= <- <-]. split; [reflexivity|].
    exists o. unfold orders. simpl.
    rewrite !collection_insert.
    destruct (decide _); [split; reflexivity | congruence].
  - split; [intros e; split; trivial | intros; discriminate].
  - split; [intros e; split; trivial | intros; discriminate].
Qed.
